(** * Tayara scraper API: a shallow embedding of [api.py] and its properties

    The development follows the source file top to bottom: Python strings
    and the few library functions the code calls ([str.strip], [str.split],
    [urllib.parse.quote], the two regular expressions), the exceptions and
    the state-and-exception monad the asynchronous code runs in, the
    response models, the browser as a black box, and then the functions of
    [TayaraScraper] and the HTTP endpoints. *)

From Stdlib Require Import List ZArith NArith Bool String Ascii Lia.
From Stdlib Require Import DecimalString.
From Equations Require Import Equations.
Import ListNotations.

Set Implicit Arguments.
Open Scope Z_scope.

(* ===================================================================== *)
(** ** Python strings *)
(* ===================================================================== *)

(** A Python [str] is a sequence of Unicode code points.  Code points are
    kept as [N]; the numbers that are no code point at all (above
    [0x10FFFF]) are harmless junk that no library function accepts. *)
Definition char := N.
Definition str := list char.

(** String literals of the source, all of them ASCII. *)
Definition lit (s : string) : str :=
  map N_of_ascii (list_ascii_of_string s).

Definition char_eqb (a b : char) : bool := N.eqb a b.

Fixpoint str_eqb (a b : str) : bool :=
  match a, b with
  | [], [] => true
  | x :: a', y :: b' => char_eqb x y && str_eqb a' b'
  | _, _ => false
  end.

(** Truthiness of a [str]: the empty string is falsy. *)
Definition truthy (s : str) : bool :=
  match s with [] => false | _ :: _ => true end.

(** Truthiness of an [Optional[str]]: [None] and [""] are falsy. *)
Definition truthy_opt (o : option str) : bool :=
  match o with Some s => truthy s | None => false end.

(** Truthiness of an [Optional[int]]: [None] and [0] are falsy. *)
Definition truthy_int (o : option Z) : bool :=
  match o with Some z => negb (z =? 0) | None => false end.

(** [str.isspace] for one code point, the set that [str.strip] and the
    regular expression class [\s] use: the Unicode white space together
    with the four separator controls U+001C..U+001F. *)
Definition isspace (c : char) : bool :=
  (((9 <=? c) && (c <=? 13)) || ((28 <=? c) && (c <=? 32))
   || (c =? 133) || (c =? 160) || (c =? 5760)
   || ((8192 <=? c) && (c <=? 8202))
   || (c =? 8232) || (c =? 8233) || (c =? 8239) || (c =? 8287)
   || (c =? 12288))%N.

Fixpoint lstrip (s : str) : str :=
  match s with
  | [] => []
  | c :: s' => if isspace c then lstrip s' else s
  end.

Definition rstrip (s : str) : str := rev (lstrip (rev s)).

(** [s.strip()] *)
Definition strip (s : str) : str := rstrip (lstrip s).

(** A string is blank when nothing is left of it after trimming. *)
Definition blank (s : str) : bool := negb (truthy (strip s)).

(** [s.startswith(prefix)] *)
Fixpoint startswith (prefix s : str) : bool :=
  match prefix, s with
  | [], _ => true
  | p :: prefix', c :: s' => char_eqb p c && startswith prefix' s'
  | _ :: _, [] => false
  end.

(** [s.split(sep)] for a separator of one character: every occurrence
    splits, and the result always has at least one part. *)
Fixpoint split (sep : char) (s : str) : list str :=
  match s with
  | [] => [[]]
  | c :: s' =>
      if char_eqb c sep then [] :: split sep s'
      else match split sep s' with
           | p :: ps => (c :: p) :: ps
           | [] => [[c]]
           end
  end.

(** [s[n:]] *)
Definition slice_from (n : nat) (s : str) : str := skipn n s.

(** [s.lower()], on the ASCII letters.  Other code points are left as
    they are; the source uses [lower] for one comparison with ["oui"],
    which only the ASCII spellings of the word can satisfy. *)
Definition lower (s : str) : str :=
  map (fun c => if ((65 <=? c) && (c <=? 90))%N then (c + 32)%N else c) s.

(** [re.search(r'^(.*?)Tel:', s, re.DOTALL)]: the lazy group under an
    anchored pattern is the text in front of the first occurrence of the
    marker; [None] when the marker does not occur. *)
Fixpoint search_before (marker s : str) : option str :=
  if startswith marker s then Some []
  else match s with
       | [] => None
       | c :: s' => option_map (cons c) (search_before marker s')
       end.

(** [re.sub(r'\s+', ' ', s)]: every maximal run of white space becomes one
    space.  [in_run] tells that the previous character was white space. *)
Fixpoint sub_spaces (in_run : bool) (s : str) : str :=
  match s with
  | [] => []
  | c :: s' =>
      if isspace c
      then if in_run then sub_spaces true s'
           else 32%N :: sub_spaces true s'
      else c :: sub_spaces false s'
  end.

(** [str(n)] and [f"{n}"] for an [int]. *)
Definition str_of_int (z : Z) : str :=
  lit (NilZero.string_of_int (Z.to_int z)).

(** [sep.join(parts)] *)
Fixpoint join (sep : str) (parts : list str) : str :=
  match parts with
  | [] => []
  | [p] => p
  | p :: ps => p ++ sep ++ join sep ps
  end.

(* --------------------------------------------------------------------- *)
(** *** [urllib.parse.quote] *)

(** UTF-8 encoding of one code point, [None] where Python's strict
    encoder raises: the surrogates and the numbers above U+10FFFF. *)
Definition utf8_encode_char (c : char) : option (list N) :=
  (if c <? 128 then Some [c]
   else if c <? 2048 then Some [192 + c / 64; 128 + c mod 64]
   else if c <? 65536 then
     if (55296 <=? c) && (c <=? 57343) then None
     else Some [224 + c / 4096; 128 + (c / 64) mod 64; 128 + c mod 64]
   else if c <? 1114112 then
     Some [240 + c / 262144; 128 + (c / 4096) mod 64;
           128 + (c / 64) mod 64; 128 + c mod 64]
   else None)%N.

Fixpoint utf8_encode (s : str) : option (list N) :=
  match s with
  | [] => Some []
  | c :: s' =>
      match utf8_encode_char c, utf8_encode s' with
      | Some b, Some bs => Some (b ++ bs)
      | _, _ => None
      end
  end.

(** The bytes [quote] leaves alone: letters, digits, [_.-~] and the
    default [safe] character [/]. *)
Definition quote_safe (b : N) : bool :=
  (((65 <=? b) && (b <=? 90)) || ((97 <=? b) && (b <=? 122))
   || ((48 <=? b) && (b <=? 57))
   || (b =? 95) || (b =? 46) || (b =? 45) || (b =? 126)
   || (b =? 47))%N.

Definition hex_digit (d : N) : char :=
  (if d <? 10 then 48 + d else 55 + d)%N.

Definition quote_byte (b : N) : str :=
  if quote_safe b then [b]
  else [37%N; hex_digit (b / 16)%N; hex_digit (b mod 16)%N].

Definition quote_bytes (bs : list N) : str := flat_map quote_byte bs.

(** [encodable s]: [s.encode('utf-8')] succeeds. *)
Definition encodable (s : str) : bool :=
  match utf8_encode s with Some _ => true | None => false end.


(* ===================================================================== *)
(** ** Exceptions and results *)
(* ===================================================================== *)

(** Exceptions the interpreter and the libraries raise on their own.  The
    wording of their messages depends on the versions installed, so it is
    left to the runtime (see [Runtime] below). *)
Inductive builtin_error :=
| UnicodeEncodeError (s : str)        (* [quote] on a lone surrogate *)
| TypeError                           (* [re.search] on [None] *)
| IndexError                          (* list index out of range *)
| UnboundLocalError (name : string)   (* local read before assignment *)
| ValidationError (field : string).   (* pydantic, a required field *)

Inductive exn :=
| Builtin (b : builtin_error)
| PlaywrightError (msg : str)         (* playwright's Error, TimeoutError *)
| ValueError (msg : str)
| HTTPException (status_code : Z) (detail : str).

Inductive result (A : Type) :=
| Ok (a : A)
| Raise (e : exn).
Arguments Ok {A} a.
Arguments Raise {A} e.

Definition rbind {A B} (c : result A) (k : A -> result B) : result B :=
  match c with
  | Ok a => k a
  | Raise e => Raise e
  end.

Notation "'let?' x ':=' c 'in' k" := (rbind c (fun x => k))
  (at level 10, x name, c at level 100, k at level 200).

Definition is_http_exception (e : exn) : bool :=
  match e with HTTPException _ _ => true | _ => false end.


(** [quote(s)] with its defaults: the empty string comes back as it is,
    anything else is encoded as UTF-8, strictly, and quoted byte by
    byte. *)
Definition quote (s : str) : result str :=
  match s with
  | [] => Ok s
  | _ :: _ =>
      match utf8_encode s with
      | Some bs => Ok (quote_bytes bs)
      | None => Raise (Builtin (UnicodeEncodeError s))
      end
  end.

(* ===================================================================== *)
(** ** Response models *)
(* ===================================================================== *)

Record Product := mkProduct {
  title : str;
  price : option str;
  location : option str;
  date_posted : option str;
  image_url : option str;
  product_url : str;
  description : option str;
  seller_name : option str;
  seller_contact : option str;
  is_delivery_available : option bool
}.

(** The call [Product(...)].  Fields left out take their declared
    defaults; pydantic refuses [None] for the two [str] fields.  The
    source always passes a [str] for [title]; [product_url] can be
    [None]. *)
Definition new_Product (title : str) (product_url : option str)
    (price location date_posted image_url : option str)
    (description seller_name seller_contact : option str)
    (is_delivery_available : option bool) : result Product :=
  match product_url with
  | None => Raise (Builtin (ValidationError "product_url"))
  | Some product_url =>
      Ok {| title := title; price := price; location := location;
            date_posted := date_posted; image_url := image_url;
            product_url := product_url; description := description;
            seller_name := seller_name; seller_contact := seller_contact;
            is_delivery_available := is_delivery_available |}
  end.

Record SearchResponse := mkSearchResponse {
  success : bool;
  total_products : Z;
  products : list Product;
  error : option str
}.

Record ProductResponse := mkProductResponse {
  p_success : bool;
  product : Product;
  p_error : option str
}.

(* ===================================================================== *)
(** ** [TayaraScraper.build_url] *)
(* ===================================================================== *)

Definition BASE_URL : str := lit "https://www.tayara.tn/ads".

(** One block [if v: path_segments.append(f"<prefix>{quote(v)}")]. *)
Definition append_segment (prefix : str) (v : option str)
    (path_segments : list str) : result (list str) :=
  if truthy_opt v then
    let? q := quote (match v with Some s => s | None => [] end) in
    Ok (path_segments ++ [prefix ++ q])
  else Ok path_segments.

(** One block [if v is not None: params.append(f"<name>={v}")]. *)
Definition append_param (name : str) (v : option Z)
    (params : list str) : list str :=
  match v with
  | Some z => params ++ [name ++ lit "=" ++ str_of_int z]
  | None => params
  end.

Definition build_url (query category : str)
    (subcategory city condition : option str)
    (min_price max_price page : option Z) : result str :=
  let path_segments := [] in
  let? path_segments := append_segment (lit "c/") (Some category) path_segments in
  let? path_segments := append_segment [] subcategory path_segments in
  let? path_segments := append_segment (lit "l/") city path_segments in
  let? path_segments := append_segment (lit "t/") condition path_segments in
  let? path_segments := append_segment (lit "k/") (Some query) path_segments in
  let url := BASE_URL ++ lit "/" ++ join (lit "/") path_segments ++ lit "/" in
  let params := [] in
  let params := append_param (lit "minPrice") min_price params in
  let params := append_param (lit "maxPrice") max_price params in
  let params :=
    if truthy_int page
    then append_param (lit "page") page params else params in
  let url :=
    match params with
    | [] => url
    | _ :: _ => url ++ lit "?" ++ join (lit "&") params
    end in
  Ok url.

(* ===================================================================== *)
(** ** The browser, as a black box *)
(* ===================================================================== *)

(** What awaiting a Playwright call gives: a value, or Playwright's own
    error (a time-out, a closed target, a bad selector). *)
Inductive pw (A : Type) :=
| PwOk (a : A)
| PwError (msg : str).
Arguments PwOk {A} a.
Arguments PwError {A} msg.

(** An element handle is known by what its methods answer. *)
#[local] Unset Elimination Schemes.
Inductive ElementHandle := mkElementHandle {
  query_selector : str -> pw (option ElementHandle);
  get_attribute : str -> pw (option str);
  inner_text : pw str;
  text_content : pw (option str);
  click : pw unit
}.
#[local] Set Elimination Schemes.

(** A loaded page, with the methods the scraper calls on it.  The
    time-out of [wait_for_selector] is in milliseconds. *)
Record Page := mkPage {
  page_query_selector : str -> pw (option ElementHandle);
  page_query_selector_all : str -> pw (list ElementHandle);
  page_wait_for_selector : str -> Z -> pw (option ElementHandle)
}.

(** The outside of the program: the browser engine, which has a state of
    its own (the web changes between two visits), and the message texts
    of the built-in exceptions.  [new_page_goto url timeout] stands for
    [browser.new_context(...)], [context.new_page()] and
    [page.goto(url, wait_until='domcontentloaded', timeout=timeout)]. *)
Class Runtime := {
  World : Type;
  launch : World -> pw unit * World;
  new_page_goto : str -> Z -> World -> pw Page * World;
  close : World -> pw unit * World;
  error_text : builtin_error -> str
}.

Inductive Level := INFO | WARNING | ERROR.

Record LogRecord := mkLogRecord {
  levelname : Level;
  message : str
}.

Definition dq : str := [34%N].
Definition comma : char := 44%N.

(** [l[i]] *)
Definition getitem {A} (l : list A) (i : nat) : result A :=
  match nth_error l i with
  | Some a => Ok a
  | None => Raise (Builtin IndexError)
  end.

Section Scraper.

Context {rt : Runtime}.

(** [str(e)] *)
Definition str_exn (e : exn) : str :=
  match e with
  | Builtin b => error_text b
  | PlaywrightError msg => msg
  | ValueError msg => msg
  | HTTPException status_code detail =>
      str_of_int status_code ++ lit ": " ++ detail
  end.

(* --------------------------------------------------------------------- *)
(** *** The monad of the asynchronous code *)

(** The state a coroutine runs against: the browser's world and the
    records handed to [logger] so far, oldest first. *)
Record State := mkState {
  world : World;
  log : list LogRecord
}.

Definition M (A : Type) : Type := State -> result A * State.

Definition ret {A} (a : A) : M A := fun s => (Ok a, s).

Definition raise {A} (e : exn) : M A := fun s => (Raise e, s).

Definition bind {A B} (c : M A) (k : A -> M B) : M B :=
  fun s =>
    match c s with
    | (Ok a, s') => k a s'
    | (Raise e, s') => (Raise e, s')
    end.

(** [try: body / except Exception as e: handler e] *)
Definition try_except {A} (body : M A) (handler : exn -> M A) : M A :=
  fun s =>
    match body s with
    | (Ok a, s') => (Ok a, s')
    | (Raise e, s') => handler e s'
    end.

(** [try: body / finally: fin]: [fin] runs on every way out of [body],
    and an exception of [fin] replaces the outcome of [body]. *)
Definition try_finally {A} (body : M A) (fin : M unit) : M A :=
  fun s =>
    match body s with
    | (r, s') =>
        match fin s' with
        | (Ok _, s'') => (r, s'')
        | (Raise e, s'') => (Raise e, s'')
        end
    end.

(** A pure computation that may raise. *)
Definition lift {A} (r : result A) : M A := fun s => (r, s).

(** Awaiting a method of a page or of an element: what it answers, or
    Playwright's error as an exception. *)
Definition await {A} (r : pw A) : M A :=
  fun s =>
    match r with
    | PwOk a => (Ok a, s)
    | PwError msg => (Raise (PlaywrightError msg), s)
    end.

(** Awaiting a call that goes through the browser itself. *)
Definition await_browser {A} (op : World -> pw A * World) : M A :=
  fun s =>
    match op (world s) with
    | (PwOk a, w) => (Ok a, mkState w (log s))
    | (PwError msg, w) => (Raise (PlaywrightError msg), mkState w (log s))
    end.

(** The state with one more record in the log. *)
Definition with_log (lvl : Level) (msg : str) (s : State) : State :=
  mkState (world s) (log s ++ [mkLogRecord lvl msg]).

(** [logger.info(msg)], [logger.warning(msg)], [logger.error(msg)] *)
Definition logger (lvl : Level) (msg : str) : M unit :=
  fun s => (Ok tt, with_log lvl msg s).

End Scraper.

Notation "x <- c ;; k" := (bind c (fun x => k))
  (at level 61, c at next level, right associativity).
Notation "c ;; k" := (bind c (fun _ => k))
  (at level 61, right associativity).

(* ===================================================================== *)
(** ** [TayaraScraper]: the listing pages *)
(* ===================================================================== *)

(** Awaiting a method of a page or of an element handle.  Reading the
    page changes neither the browser's world nor the log, so the blocks
    that only read are computations in [result]. *)
Definition awaited {A} (r : pw A) : result A :=
  match r with
  | PwOk a => Ok a
  | PwError msg => Raise (PlaywrightError msg)
  end.

(** Lines 230-232: the title, or the placeholder when the card has no
    title element. *)
Definition card_title (element : ElementHandle) : result str :=
  let? title_elem := awaited (query_selector element (lit "h2.card-title")) in
  match title_elem with
  | Some title_elem => awaited (inner_text title_elem)
  | None => Ok (lit "No title")
  end.

(** Lines 234-244. *)
Definition card_price (element : ElementHandle) : result (option str) :=
  let? price_elem := awaited (query_selector element (lit "data")) in
  let price := None in
  match price_elem with
  | Some price_elem =>
      let? price_value := awaited (get_attribute price_elem (lit "value")) in
      let? price_text := awaited (inner_text price_elem) in
      match price_value with
      | Some ((_ :: _) as price_value) => Ok (Some (price_value ++ lit " DT"))
      | _ => if truthy price_text then Ok (Some (strip price_text))
             else Ok price
      end
  | None => Ok price
  end.

Definition location_selector : str :=
  lit "svg[viewBox=" ++ dq ++ lit "0 0 20 20" ++ dq ++ lit "] + span".

(** The split of lines 252-259: [(location, date_posted)] from the
    composite text. *)
Definition split_location_date (location_and_date : option str)
  : result (option str * option str) :=
  let location := None in
  let date_posted := None in
  match location_and_date with
  | Some ((_ :: _) as location_and_date) =>
      let parts := split comma location_and_date in
      if (2 <=? List.length parts)%nat then
        let? p0 := getitem parts 0 in
        let? p1 := getitem parts 1 in
        Ok (Some (strip p0), Some (strip p1))
      else Ok (Some (strip location_and_date), date_posted)
  | _ => Ok (location, date_posted)
  end.

(** Lines 246-259. *)
Definition card_location_date (element : ElementHandle)
  : result (option str * option str) :=
  let? location_elem := awaited (query_selector element location_selector) in
  let? location_and_date :=
    match location_elem with
    | Some location_elem =>
        let? t := awaited (inner_text location_elem) in Ok (Some t)
    | None => Ok None
    end in
  split_location_date location_and_date.

(** Lines 261-263. *)
Definition card_image_url (element : ElementHandle) : result (option str) :=
  let? img_elem := awaited (query_selector element (lit "img")) in
  match img_elem with
  | Some img_elem => awaited (get_attribute img_elem (lit "src"))
  | None => Ok None
  end.

(** Lines 265-268.  [relative_url] is an [Optional[str]]: [get_attribute]
    answers [None] for a link without [href], and then [product_url] is
    [None] as well. *)
Definition card_product_url (element : ElementHandle) : result (option str) :=
  let? link_elem := awaited (query_selector element (lit "a")) in
  let? relative_url :=
    match link_elem with
    | Some link_elem => awaited (get_attribute link_elem (lit "href"))
    | None => Ok (Some [])
    end in
  match relative_url with
  | Some ((_ :: _) as r) =>
      if negb (startswith (lit "http") r)
      then Ok (Some (lit "https://www.tayara.tn" ++ r))
      else Ok relative_url
  | _ => Ok relative_url
  end.

(** The [try] body of [extract_product_info], lines 230-281. *)
Definition card_fields (element : ElementHandle) : result (option Product) :=
  let? title := card_title element in
  let? price := card_price element in
  let? ld := card_location_date element in
  let '(location, date_posted) := ld in
  let? image_url := card_image_url element in
  let? product_url := card_product_url element in
  if truthy title && truthy (strip title) then
    let? p := new_Product (strip title) product_url price location
                date_posted image_url None None None (Some false) in
    Ok (Some p)
  else Ok None.

Section TayaraScraper.

Context {rt : Runtime}.

(** [extract_product_info], lines 226-285. *)
Definition extract_product_info (element : ElementHandle)
  : M (option Product) :=
  try_except
    (lift (card_fields element))
    (fun e =>
       logger ERROR (lit "Error extracting product info: " ++ str_exn e) ;;
       ret None).

(** The loop [for element in product_elements] of
    [scrape_products_per_page], lines 146-153. *)
Fixpoint for_product_elements (product_elements : list ElementHandle)
    (products : list Product) : M (list Product) :=
  match product_elements with
  | [] => ret products
  | element :: rest =>
      products <-
        try_except
          (product_data <- extract_product_info element ;;
           match product_data with
           | Some product_data => ret (products ++ [product_data])
           | None => ret products
           end)
          (fun e =>
             logger ERROR (lit "Error extracting product: " ++ str_exn e) ;;
             ret products) ;;
      for_product_elements rest products
  end.

(** [scrape_products_per_page], lines 100-162.  The browser is launched
    in front of the [try]; [browser.close()] is the [finally]. *)
Definition scrape_products_per_page (url : str) : M (list Product) :=
  logger INFO (lit "Scraping URL: " ++ url) ;;
  let products := [] in
  await_browser launch ;;
  try_finally
    (try_except
       (page_obj <- await_browser (new_page_goto url 60000) ;;
        await (page_wait_for_selector page_obj (lit "article") 10000) ;;
        product_elements <-
          await (page_query_selector_all page_obj (lit "article")) ;;
        products <- for_product_elements product_elements products ;;
        logger INFO (lit "Extracted "
                     ++ str_of_int (Z.of_nat (List.length products))
                     ++ lit " products from page") ;;
        ret products)
       (fun e =>
          logger ERROR (lit "Scraping error: " ++ str_exn e) ;;
          raise (ValueError (lit "Scraping failed: " ++ str_exn e
                             ++ lit " for page url " ++ url))))
    (await_browser close).

(** How one turn of the [while] loop of [scrape_products] ends: at a
    [break], or on one of the two ways that do [current_page += 1] (the
    end of the [try] body and the [except] clause).  Either way carries
    [all_products] as the turn leaves it. *)
Inductive turn :=
| Break (all_products : list Product)
| NextPage (all_products : list Product).

Section Search.

Variables (query category subcategory : str).
Variables (city condition : option str).
Variables (min_price max_price : option Z).

(** The body of the loop, lines 181-218.  [asyncio.sleep(2)] only passes
    time. *)
Definition scrape_turn (current_page : Z) (all_products : list Product)
  : M turn :=
  try_except
    (url <- lift (build_url query category (Some subcategory) city
                    condition min_price max_price (Some current_page)) ;;
     logger INFO (lit "Scraping page " ++ str_of_int current_page
                  ++ lit ": " ++ url) ;;
     products_per_page <- scrape_products_per_page url ;;
     match products_per_page with
     | [] =>
         logger INFO (lit "No products found on page "
                      ++ str_of_int current_page ++ lit ", stopping") ;;
         ret (Break all_products)
     | _ :: _ =>
         let all_products := all_products ++ products_per_page in
         logger INFO (lit "Total products so far: "
                      ++ str_of_int (Z.of_nat (List.length all_products))) ;;
         if (Z.of_nat (List.length products_per_page) <? 30) then
           logger INFO (lit "Got only "
                        ++ str_of_int (Z.of_nat (List.length products_per_page))
                        ++ lit " products on page "
                        ++ str_of_int current_page
                        ++ lit ", might be last page") ;;
           ret (Break all_products)
         else ret (NextPage all_products)
     end)
    (fun e =>
       logger ERROR (lit "Error scraping page " ++ str_of_int current_page
                     ++ lit ": " ++ str_exn e) ;;
       ret (NextPage all_products)).

(** [while current_page <= max_pages].  Every turn that does not break
    moves to the next page, so the distance to [max_pages] shrinks. *)
Equations? while_pages (max_pages current_page : Z)
    (all_products : list Product) : M (list Product)
    by wf (Z.to_nat (max_pages + 1 - current_page)) lt :=
  while_pages max_pages current_page all_products
    with Z_le_gt_dec current_page max_pages := {
    | left _ =>
        t <- scrape_turn current_page all_products ;;
        match t with
        | Break all_products => ret all_products
        | NextPage all_products =>
            while_pages max_pages (current_page + 1) all_products
        end
    | right _ => ret all_products }.
Proof. lia. Qed.

(** [scrape_products], lines 164-224.  The dictionary it returns has the
    three keys [success], [total_products] and [products]; it is kept as
    the [SearchResponse] that the endpoint builds from it, whose [error]
    is [None]. *)
Definition scrape_products (max_pages : Z) : M SearchResponse :=
  let all_products := [] in
  let current_page := 1 in
  all_products <- while_pages max_pages current_page all_products ;;
  ret {| success := true;
         total_products := Z.of_nat (List.length all_products);
         products := all_products;
         error := None |}.

End Search.

End TayaraScraper.

(* ===================================================================== *)
(** ** [TayaraScraper]: the detail page *)
(* ===================================================================== *)

(** A local variable of a Python function: unbound until the first
    assignment reaches it. *)
Inductive local (A : Type) :=
| Unbound
| Bound (a : A).
Arguments Unbound {A}.
Arguments Bound {A} a.

(** Reading a local: [UnboundLocalError] when no assignment was run. *)
Definition read_local {A} (name : string) (v : local A) : result A :=
  match v with
  | Bound a => Ok a
  | Unbound => Raise (Builtin (UnboundLocalError name))
  end.

(** [re.search(r'^(.*?)Tel:', full_text, re.DOTALL)], which raises
    [TypeError] on [None].  The answer is group 1 of the match. *)
Definition re_search_tel (full_text : option str) : result (option str) :=
  match full_text with
  | Some full_text => Ok (search_before (lit "Tel:") full_text)
  | None => Raise (Builtin TypeError)
  end.

(** Lines 354-360: the description from the text of its paragraph. *)
Definition describe (full_text : option str) : result str :=
  let? m := re_search_tel full_text in
  match m with
  | Some group1 =>
      let description := strip group1 in
      let description := sub_spaces false description in
      Ok description
  | None =>
      Ok (strip (match full_text with Some t => t | None => [] end))
  end.

(** A text read with [inner_text] and kept when it is not blank: the
    blocks [# Extract title] and [# Extract seller name], lines
    322-336. *)
Definition page_text {A} (page : Page) (selector : str)
    (default : A) (keep : str -> A) : result A :=
  let? elem := awaited (page_query_selector page selector) in
  match elem with
  | Some elem =>
      let? text := awaited (inner_text elem) in
      if truthy text && truthy (strip text) then Ok (keep (strip text))
      else Ok default
  | None => Ok default
  end.

(** The block [# Extract price], lines 338-347, together with the block
    [# Extract description], lines 349-360, which the indentation of the
    source puts inside [if price_elem:].  It gives [price] and the local
    [description], which no other line assigns. *)
Definition page_price_description (page : Page)
  : result (option str * local str) :=
  let price := None in
  let? price_elem := awaited (page_query_selector page (lit "data")) in
  match price_elem with
  | Some price_elem =>
      let? price_value := awaited (get_attribute price_elem (lit "value")) in
      let? price :=
        match price_value with
        | Some ((_ :: _) as price_value) =>
            Ok (Some (price_value ++ lit " DT"))
        | _ =>
            let? price_text := awaited (inner_text price_elem) in
            Ok (if truthy price_text then Some (strip price_text) else None)
        end in
      let? description_elem :=
        awaited (page_query_selector page
                   (lit "p.text-sm.text-start.text-gray-700")) in
      match description_elem with
      | Some description_elem =>
          let? full_text := awaited (text_content description_elem) in
          let? description := describe full_text in
          Ok (price, Bound description)
      | None => Ok (price, Unbound)
      end
  | None => Ok (price, Unbound)
  end.

(** The block [# Extract location and date], lines 362-371. *)
Definition page_location_date (page : Page)
  : result (option str * option str) :=
  let location := None in
  let date_posted := None in
  let? location_elem :=
    awaited (page_query_selector page
               (lit "div.flex.items-center.space-x-2.mb-1 span")) in
  match location_elem with
  | Some location_elem =>
      let? text := awaited (text_content location_elem) in
      match text with
      | Some ((_ :: _) as text) =>
          let text_elems := split comma text in
          let? p0 := getitem text_elems 0 in
          let location := Some (strip p0) in
          let? p1 := getitem text_elems 1 in
          let date_posted := Some (strip p1) in
          Ok (location, date_posted)
      | _ => Ok (location, date_posted)
      end
  | None => Ok (location, date_posted)
  end.

(** The block [# Extract delivery status], lines 374-384. *)
Definition page_delivery (page : Page) : result bool :=
  let is_delivery := false in
  let? container :=
    awaited (page_query_selector page (lit "span.flex.flex-col.py-1")) in
  match container with
  | Some container =>
      let? status_elem :=
        awaited (query_selector container (lit "span:nth-child(2)")) in
      match status_elem with
      | Some status_elem =>
          let? status_text := awaited (text_content status_elem) in
          match status_text with
          | Some ((_ :: _) as status_text) =>
              let status_text := lower (strip status_text) in
              Ok (str_eqb status_text (lit "oui"))
          | _ => Ok is_delivery
          end
      | None => Ok is_delivery
      end
  | None => Ok is_delivery
  end.

(** The block [# Extract image URL], lines 403-407. *)
Definition page_image_url (page : Page) : result (option str) :=
  let? img_elem := awaited (page_query_selector page (lit "img")) in
  match img_elem with
  | Some img_elem => awaited (get_attribute img_elem (lit "src"))
  | None => Ok None
  end.

Definition reveal_button_selector : str :=
  lit "button[aria-label=" ++ dq ++ lit "Afficher num" ++ [233%N]
  ++ lit "ro" ++ dq ++ lit "]".

Definition tel_link_selector : str :=
  lit "a[href^=" ++ dq ++ lit "tel:" ++ dq ++ lit "]".

(** The [try] body of the block [# Extract contact], lines 389-399:
    the value [seller_contact] has when the body runs to its end. *)
Definition reveal_contact (page : Page) : result (option str) :=
  let seller_contact := None in
  let? buttons := awaited (page_query_selector_all page reveal_button_selector) in
  match buttons with
  | [] => Ok seller_contact
  | _ :: _ =>
      let? phone_button := getitem buttons 1 in
      let? _ := awaited (click phone_button) in
      let? seller_contact_elem :=
        awaited (page_wait_for_selector page tel_link_selector 5000) in
      match seller_contact_elem with
      | Some seller_contact_elem =>
          let? seller_contact := awaited (text_content seller_contact_elem) in
          match seller_contact with
          | Some ((_ :: _) as t) => Ok (Some (strip (slice_from 4 t)))
          | _ => Ok seller_contact
          end
      | None => Ok seller_contact
      end
  end.

Section DetailPage.

Context {rt : Runtime}.

(** The block [# Extract contact], lines 386-401.  Every statement that
    can raise comes before the first assignment to [seller_contact], so
    the [except] clause leaves it [None]. *)
Definition extract_contact (page : Page) : M (option str) :=
  let seller_contact := None in
  try_except
    (lift (reveal_contact page))
    (fun e =>
       logger WARNING (lit "Could not extract contact info: " ++ str_exn e) ;;
       ret seller_contact).

(** Lines 322-420 of [get_product_page_info]: the fields of the loaded
    page and the [Product] built from them. *)
Definition page_fields (url : str) (page : Page) : M Product :=
  title <- lift (page_text page (lit "li.p-2.my-1.text-xs.text-gray-600 span")
                   (lit "No title") (fun t => t)) ;;
  seller_name <-
    lift (page_text page
            (lit "span.text-sm.font-semibold.text-gray-700.capitalize")
            None (fun t => Some t)) ;;
  pd <- lift (page_price_description page) ;;
  let '(price, description) := pd in
  ld <- lift (page_location_date page) ;;
  let '(location, date_posted) := ld in
  is_delivery <- lift (page_delivery page) ;;
  seller_contact <- extract_contact page ;;
  image_url <- lift (page_image_url page) ;;
  description <- lift (read_local "description" description) ;;
  lift (new_Product title (Some url) price location date_posted
          image_url (Some description) seller_name seller_contact
          (Some is_delivery)).

(** [get_product_page_info], lines 287-426. *)
Definition get_product_page_info (url : str) : M Product :=
  await_browser launch ;;
  try_finally
    (try_except
       (page <- await_browser (new_page_goto url 30000) ;;
        await (page_wait_for_selector page (lit "body") 10000) ;;
        page_fields url page)
       (fun e =>
          logger ERROR (lit "Error extracting product info: " ++ str_exn e) ;;
          raise (ValueError (lit "Failed to extract product info: "
                             ++ str_exn e))))
    (await_browser close).

End DetailPage.

(* ===================================================================== *)
(** ** The HTTP endpoints *)
(* ===================================================================== *)

Section Endpoints.

Context {rt : Runtime}.

(** The methods of the module-level object [scraper] that the endpoints
    call. *)
Record Scraper := mkScraper {
  scrape_products_of :
    str -> str -> str -> option str -> option str ->
    option Z -> option Z -> Z -> M SearchResponse;
  get_product_page_info_of : str -> M Product
}.

(** [scraper = TayaraScraper()] *)
Definition scraper : Scraper :=
  {| scrape_products_of := scrape_products;
     get_product_page_info_of := get_product_page_info |}.


(** The body of [search_products], lines 462-490, over the scraper it
    delegates to.  The dictionary [scrape_products] returns is kept as
    the [SearchResponse] the endpoint builds from its three keys. *)
Definition search_products_on (scraper : Scraper)
    (query category subcategory : str) (city status : option str)
    (min_price max_price : option Z) (max_pages : Z) : M SearchResponse :=
  try_except
    ((match min_price, max_price with
      | Some lo, Some hi =>
          if lo >? hi
          then raise (HTTPException 400
                        (lit "min_price cannot be greater than max_price"))
          else ret tt
      | _, _ => ret tt
      end) ;;
     result <- scrape_products_of scraper query category subcategory city
                 status min_price max_price max_pages ;;
     ret result)
    (fun e =>
       if is_http_exception e then raise e
       else
         logger ERROR (lit "Search error: " ++ str_exn e) ;;
         ret {| success := false; total_products := 0; products := [];
                error := Some (str_exn e) |}).

Definition search_products := search_products_on scraper.




End Endpoints.

(** What the framework sends for the outcome of an endpoint: the model as
    JSON with status 200, the status and detail of an [HTTPException], or
    the answer of the handler registered for 500 (lines 545-550). *)
Inductive HttpResponse (R : Type) :=
| JsonBody (status : Z) (body : R)
| Detail (status : Z) (detail : str)
| InternalServerError.
Arguments JsonBody {R} status body.
Arguments Detail {R} status detail.
Arguments InternalServerError {R}.

(** A response model that is sent as JSON.  The body is encoded as UTF-8,
    so a model serialises when each of its texts has such an encoding. *)
Class JsonModel (R : Type) := {
  serialisable : R -> bool
}.

Definition text_serialisable (o : option str) : bool :=
  match o with Some t => encodable t | None => true end.

Definition product_serialisable (p : Product) : bool :=
  encodable (title p) && text_serialisable (price p)
  && text_serialisable (location p) && text_serialisable (date_posted p)
  && text_serialisable (image_url p) && encodable (product_url p)
  && text_serialisable (description p) && text_serialisable (seller_name p)
  && text_serialisable (seller_contact p).

#[export] Instance SearchResponse_json : JsonModel SearchResponse := {|
  serialisable := fun r =>
    forallb product_serialisable (products r) && text_serialisable (error r)
|}.

#[export] Instance ProductResponse_json : JsonModel ProductResponse := {|
  serialisable := fun r =>
    product_serialisable (product r) && text_serialisable (p_error r)
|}.

(** The answer to a request whose parameters have passed the checks the
    framework makes from the [Query] declarations before it calls the
    endpoint (a request that fails them is answered 422 and never reaches
    the endpoint, so it has no outcome to answer for).  A body that does
    not serialise is an error of the server. *)
Definition respond {R} {json : JsonModel R} (r : result R)
  : HttpResponse R :=
  match r with
  | Ok body =>
      if serialisable body then JsonBody 200 body else InternalServerError
  | Raise (HTTPException status_code detail) => Detail status_code detail
  | Raise _ => InternalServerError
  end.

Definition status_of {R} (h : HttpResponse R) : Z :=
  match h with
  | JsonBody status _ => status
  | Detail status _ => status
  | InternalServerError => 500
  end.

(** A client error is a status of the 4xx class. *)
Definition client_error (status : Z) : bool :=
  (400 <=? status) && (status <? 500).

(* ===================================================================== *)
(** ** A scripted runtime, to run the code on concrete pages *)
(* ===================================================================== *)

(** The browser answers the navigations of a run from a list, one page
    load (or failure) per navigation, and remembers the URLs it was sent
    to.  [launch_outcome] and [close_outcome] answer every launch and
    every close. *)
Record Script := mkScript {
  launch_outcome : pw unit;
  close_outcome : pw unit;
  upcoming : list (pw Page);
  visited : list str
}.

Definition newline : str := [10%N].

(** The minor version of pydantic that the link of its messages names;
    the repository pins none, this is the one of the scripted runtime. *)
Definition pydantic_version : str := lit "2.11".

(** Message texts as CPython 3.12 and pydantic 2 word them.  The
    [ValidationError] is the one of a required [str] field that was given
    [None].  The text of the [UnicodeEncodeError] is cut short: CPython
    also names the offending character and its position in the text. *)
Definition cpython_text (b : builtin_error) : str :=
  match b with
  | UnicodeEncodeError _ =>
      lit "'utf-8' codec can't encode characters: surrogates not allowed"
  | TypeError => lit "expected string or bytes-like object, got 'NoneType'"
  | IndexError => lit "list index out of range"
  | UnboundLocalError name =>
      lit "cannot access local variable '" ++ lit name
      ++ lit "' where it is not associated with a value"
  | ValidationError field =>
      lit "1 validation error for Product" ++ newline
      ++ lit field ++ newline
      ++ lit "  Input should be a valid string [type=string_type, input_value=None, input_type=NoneType]"
      ++ newline
      ++ lit "    For further information visit https://errors.pydantic.dev/"
      ++ pydantic_version ++ lit "/v/string_type"
  end.

#[export] Instance scripted : Runtime := {|
  World := Script;
  launch := fun w => (launch_outcome w, w);
  new_page_goto := fun url _ w =>
    match upcoming w with
    | [] =>
        (PwError (lit "net::ERR_CONNECTION_REFUSED"),
         mkScript (launch_outcome w) (close_outcome w) []
           (visited w ++ [url]))
    | p :: rest =>
        (p, mkScript (launch_outcome w) (close_outcome w) rest
              (visited w ++ [url]))
    end;
  close := fun w => (close_outcome w, w);
  error_text := cpython_text
|}.

(** A fresh run against a list of page loads. *)
Definition fresh (pages : list (pw Page)) : State :=
  mkState (mkScript (PwOk tt) (PwOk tt) pages []) [].

(** Selectors are told apart by their text. *)
Definition selects (table : list (str * ElementHandle)) (selector : str)
  : pw (option ElementHandle) :=
  PwOk (option_map snd
          (find (fun entry => str_eqb (fst entry) selector) table)).

Definition attributes (table : list (str * str)) (name : str)
  : pw (option str) :=
  PwOk (option_map snd
          (find (fun entry => str_eqb (fst entry) name) table)).

(** An element with the given text, attributes and descendants. *)
Definition element (text : str) (attrs : list (str * str))
    (children : list (str * ElementHandle)) : ElementHandle :=
  mkElementHandle (selects children) (attributes attrs) (PwOk text)
    (PwOk (Some text)) (PwOk tt).

(** A listing page showing the given cards. *)
Definition listing_page (cards : list ElementHandle) : Page :=
  mkPage (fun _ => PwOk None) (fun _ => PwOk cards) (fun _ _ => PwOk None).

(** A listing card with a title and a link. *)
Definition card (title href : str) : ElementHandle :=
  element [] []
    [(lit "h2.card-title", element title [] []);
     (lit "a", element [] [(lit "href", href)] [])].

(** A listing card without a title element. *)
Definition untitled_card (href : str) : ElementHandle :=
  element [] [] [(lit "a", element [] [(lit "href", href)] [])].

(** A listing card whose title is there and blank. *)
Definition blank_card : ElementHandle := card (lit "   ") (lit "/item/0").

(** A detail page with the given elements, reveal buttons and answer to
    the wait for the [tel:] link. *)
Definition detail_page (children : list (str * ElementHandle))
    (buttons : list ElementHandle) (tel : pw (option ElementHandle))
  : Page :=
  mkPage (selects children) (fun _ => PwOk buttons)
    (fun selector _ =>
       if str_eqb selector tel_link_selector then tel else PwOk None).

(* ===================================================================== *)
(** ** The URL as the specification words it *)
(* ===================================================================== *)

(** Percent-encoding of a text that has a UTF-8 encoding. *)
Definition percent_encode (s : str) : str :=
  match utf8_encode s with
  | Some bs => quote_bytes bs
  | None => []
  end.

(** The segment of one field: nothing when the field is absent or
    empty. *)
Definition segment_of (prefix : str) (v : option str) : list str :=
  match v with
  | Some ((_ :: _) as s) => [prefix ++ percent_encode s]
  | _ => []
  end.

(** The segments of the present fields, in the fixed order. *)
Definition url_segments (query category : str)
    (subcategory city condition : option str) : list str :=
  segment_of (lit "c/") (Some category)
  ++ segment_of [] subcategory
  ++ segment_of (lit "l/") city
  ++ segment_of (lit "t/") condition
  ++ segment_of (lit "k/") (Some query).

Definition param_of (name : str) (v : option Z) : list str :=
  match v with
  | Some z => [name ++ lit "=" ++ str_of_int z]
  | None => []
  end.

(** The query string: [minPrice] and [maxPrice] when given, [page] when
    truthy, joined with [&] behind a [?]; nothing when all are absent. *)
Definition url_query_string (min_price max_price page : option Z) : str :=
  match param_of (lit "minPrice") min_price
        ++ param_of (lit "maxPrice") max_price
        ++ (if truthy_int page then param_of (lit "page") page else [])
  with
  | [] => []
  | (_ :: _) as params => lit "?" ++ join (lit "&") params
  end.

Definition encodable_opt (v : option str) : bool :=
  match v with Some s => encodable s | None => true end.

(* ===================================================================== *)
(** ** What makes a listing card yield a record *)
(* ===================================================================== *)

Definition reads {A} (r : pw A) : bool :=
  match r with PwOk _ => true | PwError _ => false end.

(** The card has no title element. *)
Definition title_missing (element : ElementHandle) : bool :=
  match query_selector element (lit "h2.card-title") with
  | PwOk None => true
  | _ => false
  end.

(** The text of the card's title element, when there is one and it can
    be read. *)
Definition title_text (element : ElementHandle) : option str :=
  match query_selector element (lit "h2.card-title") with
  | PwOk (Some title_elem) =>
      match inner_text title_elem with
      | PwOk t => Some t
      | PwError _ => None
      end
  | _ => None
  end.

(** The title is usable: the element is missing, or its text is not
    blank. *)
Definition title_usable (element : ElementHandle) : bool :=
  title_missing element
  || match title_text element with
     | Some t => negb (blank t)
     | None => false
     end.

(** The browser answers every read the price block makes. *)
Definition price_readable (element : ElementHandle) : bool :=
  match query_selector element (lit "data") with
  | PwOk None => true
  | PwOk (Some price_elem) =>
      reads (get_attribute price_elem (lit "value"))
      && reads (inner_text price_elem)
  | PwError _ => false
  end.

Definition location_readable (element : ElementHandle) : bool :=
  match query_selector element location_selector with
  | PwOk None => true
  | PwOk (Some location_elem) => reads (inner_text location_elem)
  | PwError _ => false
  end.

Definition image_readable (element : ElementHandle) : bool :=
  match query_selector element (lit "img") with
  | PwOk None => true
  | PwOk (Some img_elem) => reads (get_attribute img_elem (lit "src"))
  | PwError _ => false
  end.

(** The card has no link, or a link that carries an [href]. *)
Definition link_usable (element : ElementHandle) : bool :=
  match query_selector element (lit "a") with
  | PwOk None => true
  | PwOk (Some link_elem) =>
      match get_attribute link_elem (lit "href") with
      | PwOk (Some _) => true
      | _ => false
      end
  | PwError _ => false
  end.

(** A card is valid when its title is usable, the browser answers every
    read of the other fields, and its link, if any, has an [href]. *)
Definition card_valid (element : ElementHandle) : bool :=
  title_usable element && price_readable element
  && location_readable element && image_readable element
  && link_usable element.

(** The records of a page, in the order of its cards. *)
Definition page_records (cards : list ElementHandle) : list Product :=
  flat_map (fun element =>
              match card_fields element with
              | Ok (Some p) => [p]
              | _ => []
              end) cards.

(** A record of a listing page carries no field of the detail page. *)
Definition listing_only (p : Product) : Prop :=
  description p = None /\ seller_name p = None
  /\ seller_contact p = None /\ is_delivery_available p = Some false.

(** Two valid cards, one of them without a title element, and two invalid
    ones (a blank title, a link without [href]) on one page. *)
Definition mixed_page : Page :=
  listing_page
    [card (lit " Samsung S20 ") (lit "/item/1");
     blank_card;
     untitled_card (lit "https://www.tayara.tn/item/3");
     element [] []
       [(lit "h2.card-title", element (lit "iPhone") [] []);
        (lit "a", element [] [] [])]].

(** C1, as it is worded: a record is emitted only if the card has a
    title element whose text is not blank. *)
Definition emits_only_with_title_element : Prop :=
  forall (element : ElementHandle) (s : @State scripted) (p : Product),
    fst (extract_product_info element s) = Ok (Some p) ->
    exists t, title_text element = Some t /\ blank t = false.

Section PageLoads.

Context {rt : Runtime}.

(** A page that loads: the browser launches, the navigation gives a page
    on which the wait and the query for the cards succeed, and the
    browser closes. *)
Definition page_loads (url : str) (s : State) (cards : list ElementHandle)
  : Prop :=
  exists w1 pg w2 w3 o,
    launch (world s) = (PwOk tt, w1)
    /\ new_page_goto url 60000 w1 = (PwOk pg, w2)
    /\ page_wait_for_selector pg (lit "article") 10000 = PwOk o
    /\ page_query_selector_all pg (lit "article") = PwOk cards
    /\ close w2 = (PwOk tt, w3).

Section SearchPages.

Variables (query category subcategory : str).
Variables (city condition : option str).
Variables (min_price max_price : option Z).

(** What a turn of the pagination loop obtains for [products_per_page]:
    the URL of the page is built, logged and scraped. *)
Definition page_outcome (current_page : Z) (s : State)
  : result (list Product) * State :=
  match build_url query category (Some subcategory) city condition
          min_price max_price (Some current_page) with
  | Ok url =>
      scrape_products_per_page url
        (with_log INFO (lit "Scraping page " ++ str_of_int current_page
                        ++ lit ": " ++ url) s)
  | Raise e => (Raise e, s)
  end.

End SearchPages.

End PageLoads.

(** A listing page of [n] cards titled [label]. *)
Definition full_page (label : str) (n : nat) : Page :=
  listing_page (repeat (card label (lit "/item/" ++ label)) n).

(** The record of one such card. *)
Definition record_of (label : str) : Product :=
  {| title := label; price := None; location := None; date_posted := None;
     image_url := None;
     product_url := lit "https://www.tayara.tn/item/" ++ label;
     description := None; seller_name := None; seller_contact := None;
     is_delivery_available := Some false |}.

(** The URL of page [n] of the search the examples run. *)
Definition phones_url (n : string) : str :=
  lit "https://www.tayara.tn/ads/c/Informatique/Phones/k/Samsung/?page="
  ++ lit n.

(* --------------------------------------------------------------------- *)
(** *** Sample detail pages *)

Definition title_item (text : str) : str * ElementHandle :=
  (lit "li.p-2.my-1.text-xs.text-gray-600 span", element text [] []).

(** A price element with a [value] attribute. *)
Definition data_valued (value text : str) : str * ElementHandle :=
  (lit "data", element text [(lit "value", value)] []).

(** A price element without a [value] attribute. *)
Definition data_plain (text : str) : str * ElementHandle :=
  (lit "data", element text [] []).

Definition description_paragraph (text : str) : str * ElementHandle :=
  (lit "p.text-sm.text-start.text-gray-700", element text [] []).

Definition location_span (text : str) : str * ElementHandle :=
  (lit "div.flex.items-center.space-x-2.mb-1 span", element text [] []).

Definition delivery_status (text : str) : str * ElementHandle :=
  (lit "span.flex.flex-col.py-1",
   element [] [] [(lit "span:nth-child(2)", element text [] [])]).

Definition a_button : ElementHandle := element (lit "Afficher") [] [].

Definition tel_link (text : str) : pw (option ElementHandle) :=
  PwOk (Some (element text [] [])).

Definition phone_url : str := lit "https://www.tayara.tn/item/42/phone".

(** A detail page with a description and a location but no price
    element. *)
Definition page_without_price : Page :=
  detail_page
    [title_item (lit "Samsung S20");
     description_paragraph (lit "Great phone. Tel: 12345678 extra");
     location_span (lit "Tunis, 2 days ago")]
    [] (PwOk None).

(** A detail page with a price but no description paragraph. *)
Definition page_without_description : Page :=
  detail_page
    [title_item (lit "Samsung S20");
     data_valued (lit "150") (lit "150 DT");
     location_span (lit "Tunis, 2 days ago")]
    [] (PwOk None).

(** A detail page with every field, the price with a [value]. *)
Definition complete_page : Page :=
  detail_page
    [title_item (lit "Samsung S20");
     data_valued (lit "150") (lit "150 DT");
     description_paragraph (lit "Great phone. Tel: 12345678 extra");
     location_span (lit "Tunis, 2 days ago");
     delivery_status (lit "Oui")]
    [a_button; a_button] (tel_link (lit "Tel: 12 345 678 ")).

(** The same page with a location that has no comma. *)
Definition page_without_comma : Page :=
  detail_page
    [title_item (lit "Samsung S20");
     data_valued (lit "150") (lit "150 DT");
     description_paragraph (lit "Great phone. Tel: 12345678 extra");
     location_span (lit "Tunis");
     delivery_status (lit "Oui")]
    [a_button; a_button] (tel_link (lit "Tel: 12 345 678 ")).

(** [p] with another seller contact. *)
Definition with_contact (p : Product) (contact : option str) : Product :=
  {| title := title p; price := price p; location := location p;
     date_posted := date_posted p; image_url := image_url p;
     product_url := product_url p; description := description p;
     seller_name := seller_name p; seller_contact := contact;
     is_delivery_available := is_delivery_available p |}.

(* --------------------------------------------------------------------- *)
(** *** The checks of the endpoints *)

(** The price range [/search] accepts: not both bounds given with the
    lower one above the upper one. *)
Definition price_range_ok (min_price max_price : option Z) : bool :=
  match min_price, max_price with
  | Some lo, Some hi => negb (lo >? hi)
  | _, _ => true
  end.

(** A scraper object whose methods raise. *)
Definition failing_scraper (e : exn) : @Scraper scripted :=
  {| scrape_products_of := fun _ _ _ _ _ _ _ _ => raise e;
     get_product_page_info_of := fun _ => raise e |}.

(** A listing card with a price, a composite location and an image. *)
Definition priced_card (value text where_when : str) : ElementHandle :=
  element [] []
    [(lit "h2.card-title", element (lit "Samsung S20") [] []);
     (lit "data",
      element text (match value with
                    | [] => []
                    | _ :: _ => [(lit "value", value)]
                    end) []);
     (location_selector, element where_when [] []);
     (lit "img", element [] [(lit "src", lit "https://cdn.tayara.tn/1.jpg")] []);
     (lit "a", element [] [(lit "href", lit "/item/1")] [])].


(* ===================================================================== *)
(** ** More sample pages and auxiliary notions *)
(* ===================================================================== *)

(** A results page on which no card ever appears: the wait for
    [article] runs into its time-out. *)
Definition page_without_cards : Page :=
  mkPage (fun _ => PwOk None) (fun _ => PwOk [])
    (fun _ _ => PwError (lit "Timeout 10000ms exceeded.")).

(** A run against a browser that cannot be launched. *)
Definition no_browser (pages : list (pw Page)) : @State scripted :=
  mkState (mkScript (PwError (lit "Executable doesn't exist")) (PwOk tt)
             pages []) [].

(** Every text field of a search has a UTF-8 encoding. *)
Definition all_encodable (query category : str)
    (subcategory city condition : option str) : bool :=
  encodable category && encodable_opt subcategory && encodable_opt city
  && encodable_opt condition && encodable query.

Section VisitedPages.

Variables (query category subcategory : str).
Variables (city condition : option str).
Variables (min_price max_price : option Z).

(** The URLs of the [k] pages from page [first] on, in order; a page
    whose URL cannot be built has none. *)
Definition page_urls (first : Z) (k : nat) : list str :=
  flat_map (fun i =>
              match build_url query category (Some subcategory) city
                      condition min_price max_price
                      (Some (first + Z.of_nat i)) with
              | Ok url => [url]
              | Raise _ => []
              end) (seq 0 k).

End VisitedPages.

(** A runtime whose browser is not installed: every launch fails. *)
Definition browserless : Runtime :=
  {| World := unit;
     launch := fun w => (PwError (lit "Executable doesn't exist"), w);
     new_page_goto := fun _ _ w => (PwError (lit "Browser closed"), w);
     close := fun w => (PwOk tt, w);
     error_text := cpython_text |}.

(** The text has a comma. *)
Definition has_comma (s : str) : bool := existsb (fun c => char_eqb c comma) s.

(** The characters of a URL that [build_url] can emit: those [quote]
    leaves alone, the percent sign of an escape, and [: ? & =]. *)
Definition url_char (c : char) : bool :=
  (quote_safe c || (c =? 37) || (c =? 58) || (c =? 63) || (c =? 38)
   || (c =? 61))%N.

(** Every white space of the text is one U+0020 on its own: no other
    white space character, and no two in a row.  [after_space] tells that
    a white space would follow another one (or open the text). *)
Fixpoint single_spaced (after_space : bool) (s : str) : bool :=
  match s with
  | [] => true
  | c :: s' =>
      if isspace c
      then (c =? 32)%N && negb after_space && single_spaced true s'
      else single_spaced false s'
  end.

(** The records the listing loop hands to [logger]: one for each card
    whose extraction raised, in the order of the page. *)
Definition card_errors {rt : Runtime} (cards : list ElementHandle)
  : list LogRecord :=
  flat_map (fun element =>
              match card_fields element with
              | Raise e =>
                  [mkLogRecord ERROR
                     (lit "Error extracting product info: " ++ str_exn e)]
              | Ok _ => []
              end) cards.
(* ===================================================================== *)
(** ** Properties of the URL builder *)
(* ===================================================================== *)

Lemma quote_encodable (s : str) :
  encodable s = true -> quote s = Ok (percent_encode s).
Proof.
  unfold encodable, quote, percent_encode.
  destruct s as [|c s']; [reflexivity|].
  destruct (utf8_encode (c :: s')); [reflexivity | discriminate].
Qed.

Lemma append_segment_spec (prefix : str) (v : option str) (segs : list str) :
  encodable_opt v = true ->
  append_segment prefix v segs = Ok (segs ++ segment_of prefix v).
Proof.
  intros Henc. unfold append_segment, segment_of.
  destruct v as [[|c s']|]; cbn [truthy_opt truthy];
    rewrite ?app_nil_r; try reflexivity.
  cbn [encodable_opt] in Henc. rewrite (quote_encodable _ Henc). reflexivity.
Qed.

Lemma utf8_encode_char_nonempty (c : char) (b : list N) :
  utf8_encode_char c = Some b -> b <> [].
Proof.
  unfold utf8_encode_char.
  repeat match goal with
         | |- context [if ?t then _ else _] => destruct t
         end; intros H; inversion H; discriminate.
Qed.

Lemma quote_byte_nonempty (b : N) : quote_byte b <> [].
Proof. unfold quote_byte. destruct (quote_safe b); discriminate. Qed.

Lemma percent_encode_truthy (s : str) :
  encodable s = true -> truthy s = true -> truthy (percent_encode s) = true.
Proof.
  unfold encodable, percent_encode.
  destruct s as [|c s']; [discriminate|]. simpl.
  destruct (utf8_encode_char c) as [b|] eqn:Hc; [|discriminate].
  destruct (utf8_encode s') as [bs|]; [|discriminate].
  intros _ _. destruct b as [|b0 b'].
  - exfalso. now apply (utf8_encode_char_nonempty _ Hc).
  - unfold quote_bytes. simpl.
    pose proof (quote_byte_nonempty b0) as Hq.
    destruct (quote_byte b0); [contradiction | reflexivity].
Qed.

Lemma segment_of_truthy (prefix : str) (v : option str) :
  encodable_opt v = true ->
  Forall (fun seg => truthy seg = true) (segment_of prefix v).
Proof.
  intros Henc. destruct v as [[|c s']|]; simpl; constructor; [|constructor].
  simpl in Henc. pose proof (percent_encode_truthy (c :: s') Henc eq_refl) as Ht.
  destruct prefix; [exact Ht | reflexivity].
Qed.

(** C5.  Whatever fields are present or absent, the URL is the site's
    base, a slash, the segments of the present fields (category under
    [c/], subcategory bare, city under [l/], condition under [t/], query
    under [k/]; each percent-encoded) joined with slashes, a trailing
    slash, and the query string of [minPrice], [maxPrice] and a truthy
    [page].  An absent field leaves no segment, and no segment is empty.
    The text fields have to be encodable as UTF-8, as [quote] demands. *)
Theorem build_url_segments
    (query category : str) (subcategory city condition : option str)
    (min_price max_price page : option Z) :
  encodable category = true ->
  encodable_opt subcategory = true ->
  encodable_opt city = true ->
  encodable_opt condition = true ->
  encodable query = true ->
  build_url query category subcategory city condition
    min_price max_price page
  = Ok (BASE_URL ++ lit "/"
        ++ join (lit "/")
             (url_segments query category subcategory city condition)
        ++ lit "/" ++ url_query_string min_price max_price page)
  /\ Forall (fun seg => truthy seg = true)
       (url_segments query category subcategory city condition).
Proof.
  intros Hcat Hsub Hcity Hcond Hq. split.
  - unfold build_url, url_segments.
    rewrite (append_segment_spec (lit "c/") (Some category) [] Hcat).
    cbn [rbind].
    rewrite (append_segment_spec [] subcategory _ Hsub). cbn [rbind].
    rewrite (append_segment_spec (lit "l/") city _ Hcity). cbn [rbind].
    rewrite (append_segment_spec (lit "t/") condition _ Hcond). cbn [rbind].
    rewrite (append_segment_spec (lit "k/") (Some query) _ Hq). cbn [rbind].
    rewrite <- !app_assoc. cbn [app].
    unfold url_query_string, append_param, param_of.
    destruct min_price, max_price, page as [pg|]; cbn [truthy_int app];
      try destruct (negb (pg =? 0)); cbn [app];
      rewrite ?app_nil_r, <- ?app_assoc; reflexivity.
  - unfold url_segments.
    apply Forall_app; split; [now apply segment_of_truthy|].
    apply Forall_app; split; [now apply segment_of_truthy|].
    apply Forall_app; split; [now apply segment_of_truthy|].
    apply Forall_app; split; now apply segment_of_truthy.
Qed.

Lemma build_url_segments_witness :
  build_url (lit "Samsung S20") (lit "Informatique et Multimedias")
    (Some [84; 233; 108; 233; 112; 104; 111; 110; 101; 115]%N)
    (Some (lit "Ariana")) None (Some 1000) None (Some 2)
  = Ok (lit "https://www.tayara.tn/ads/c/Informatique%20et%20Multimedias/T%C3%A9l%C3%A9phones/l/Ariana/k/Samsung%20S20/?minPrice=1000&page=2").
Proof.
  pose proof (build_url_segments (lit "Samsung S20")
                (lit "Informatique et Multimedias")
                (Some [84; 233; 108; 233; 112; 104; 111; 110; 101; 115]%N)
                (Some (lit "Ariana")) None (Some 1000) None (Some 2)
                eq_refl eq_refl eq_refl eq_refl eq_refl) as [H _].
  rewrite H. vm_compute. reflexivity.
Defined.

(* ===================================================================== *)
(** ** Properties of the listing extractor *)
(* ===================================================================== *)

Lemma lstrip_idempotent (s : str) : lstrip (lstrip s) = lstrip s.
Proof.
  induction s as [|c s IH]; simpl; [reflexivity|].
  destruct (isspace c) eqn:Hc; [exact IH|]. simpl. now rewrite Hc.
Qed.

Lemma lstrip_snoc (s : str) (c : char) :
  isspace c = false -> lstrip (s ++ [c]) = lstrip s ++ [c].
Proof.
  intros Hc. induction s as [|d s IH]; simpl.
  - now rewrite Hc.
  - destruct (isspace d); [exact IH | reflexivity].
Qed.

Lemma lstrip_head (s : str) :
  match lstrip s with
  | [] => True
  | c :: _ => isspace c = false
  end.
Proof.
  induction s as [|c s IH]; simpl; [exact I|].
  destruct (isspace c) eqn:Hc; [exact IH | exact Hc].
Qed.

Lemma strip_idempotent (s : str) : strip (strip s) = strip s.
Proof.
  unfold strip. pose proof (lstrip_head s) as Hh.
  destruct (lstrip s) as [|c u] eqn:Hu; [reflexivity|].
  assert (Hr : rstrip (c :: u) = c :: rstrip u).
  { unfold rstrip. simpl. rewrite (lstrip_snoc (rev u) c Hh).
    rewrite rev_app_distr. reflexivity. }
  rewrite Hr. simpl. rewrite Hh. rewrite <- Hr.
  unfold rstrip. rewrite rev_involutive, lstrip_idempotent. reflexivity.
Qed.

Lemma truthy_strip (t : str) : truthy (strip t) = true -> truthy t = true.
Proof. destruct t; [discriminate | reflexivity]. Qed.

Lemma title_test (t : str) : truthy t && truthy (strip t) = negb (blank t).
Proof.
  unfold blank. rewrite negb_involutive.
  destruct (truthy (strip t)) eqn:H.
  - now rewrite (truthy_strip _ H).
  - apply andb_false_r.
Qed.

Lemma blank_strip (t : str) : blank (strip t) = blank t.
Proof. unfold blank. now rewrite strip_idempotent. Qed.

Lemma split_nonempty (sep : char) (s : str) : split sep s <> [].
Proof.
  induction s as [|c s IH]; simpl; [discriminate|].
  destruct (char_eqb c sep); [discriminate|].
  destruct (split sep s); [contradiction | discriminate].
Qed.

Lemma split_location_date_ok (location_and_date : option str) :
  exists ld, split_location_date location_and_date = Ok ld.
Proof.
  unfold split_location_date.
  destruct location_and_date as [[|c s]|]; eauto.
  destruct (split comma (c :: s)) as [|p0 [|p1 ps]]; simpl; eauto.
Qed.

Lemma card_title_cases (element : ElementHandle) :
  match card_title element with
  | Ok t => (title_missing element = true /\ t = lit "No title")
            \/ title_text element = Some t
  | Raise _ => title_missing element = false /\ title_text element = None
  end.
Proof.
  unfold card_title, title_missing, title_text, awaited, rbind.
  destruct (query_selector element (lit "h2.card-title")) as [[te|]|];
    [destruct (inner_text te)| |]; auto.
Qed.

Lemma card_price_cases (element : ElementHandle) :
  match card_price element with
  | Ok _ => price_readable element = true
  | Raise _ => price_readable element = false
  end.
Proof.
  unfold card_price, price_readable, awaited, rbind, reads.
  destruct (query_selector element (lit "data")) as [[pe|]|]; auto.
  destruct (get_attribute pe (lit "value")) as [[[|c v]|]|];
    destruct (inner_text pe) as [t|]; auto; destruct (truthy t); auto.
Qed.

Lemma card_location_date_cases (element : ElementHandle) :
  match card_location_date element with
  | Ok _ => location_readable element = true
  | Raise _ => location_readable element = false
  end.
Proof.
  unfold card_location_date, location_readable, awaited, rbind, reads.
  destruct (query_selector element location_selector) as [[le|]|]; auto.
  - destruct (inner_text le) as [t|]; auto.
    destruct (split_location_date_ok (Some t)) as [ld ->]. reflexivity.
  - destruct (split_location_date_ok None) as [ld ->]. reflexivity.
Qed.

Lemma card_image_url_cases (element : ElementHandle) :
  match card_image_url element with
  | Ok _ => image_readable element = true
  | Raise _ => image_readable element = false
  end.
Proof.
  unfold card_image_url, image_readable, awaited, rbind, reads.
  destruct (query_selector element (lit "img")) as [[ie|]|]; auto.
  destruct (get_attribute ie (lit "src")); auto.
Qed.

Lemma card_product_url_cases (element : ElementHandle) :
  match card_product_url element with
  | Ok (Some _) => link_usable element = true
  | Ok None => link_usable element = false
  | Raise _ => link_usable element = false
  end.
Proof.
  unfold card_product_url, link_usable, awaited, rbind.
  destruct (query_selector element (lit "a")) as [[le|]|]; auto.
  destruct (get_attribute le (lit "href")) as [[[|c r]|]|]; auto.
  destruct (negb (startswith (lit "http") (c :: r))); auto.
Qed.

(** What the [try] body of the extractor gives, block by block. *)
Lemma card_fields_cases (element : ElementHandle) :
  match card_fields element with
  | Ok (Some p) =>
      card_valid element = true
      /\ listing_only p
      /\ ((title_missing element = true /\ title p = lit "No title")
          \/ exists t, title_text element = Some t /\ blank t = false
                       /\ title p = strip t)
  | Ok None => card_valid element = false
  | Raise _ => card_valid element = false
  end.
Proof.
  unfold card_fields, card_valid, title_usable.
  pose proof (card_title_cases element) as Ht.
  pose proof (card_price_cases element) as Hp.
  pose proof (card_location_date_cases element) as Hl.
  pose proof (card_image_url_cases element) as Hi.
  pose proof (card_product_url_cases element) as Hu.
  destruct (card_title element) as [t|e]; cbn [rbind].
  2:{ destruct Ht as [-> ->]. reflexivity. }
  destruct (card_price element) as [pr|e]; cbn [rbind];
    [|rewrite Hp; now rewrite andb_false_r].
  destruct (card_location_date element) as [[loc dt]|e]; cbn [rbind];
    [|rewrite Hl; now rewrite !andb_false_r].
  destruct (card_image_url element) as [im|e]; cbn [rbind];
    [|rewrite Hi; now rewrite !andb_false_r].
  destruct (card_product_url element) as [[u|]|e]; cbn [rbind];
    try (rewrite Hu; rewrite ?title_test;
         destruct (negb (blank t)); cbn [rbind new_Product];
         now rewrite !andb_false_r).
  rewrite Hp, Hl, Hi, Hu, !andb_true_r, title_test.
  destruct Ht as [[Hm ->]|Htx].
  - rewrite Hm. cbn. repeat split. left. split; reflexivity.
  - rewrite Htx.
    assert (Hm : title_missing element = false).
    { unfold title_missing. unfold title_text in Htx.
      destruct (query_selector element (lit "h2.card-title")) as [[?|]|];
        [reflexivity | discriminate | reflexivity]. }
    rewrite Hm. cbn [orb].
    destruct (blank t) eqn:Hb; cbn [negb rbind new_Product]; [reflexivity|].
    repeat split. right. exists t. repeat split; assumption.
Qed.

Section ListingProperties.

Context {rt : Runtime}.

(** The extractor as a function of the card: the record of the [try]
    body, or [None] and one more log record when the body raised. *)
Lemma extract_product_info_eq (element : ElementHandle) (s : State) :
  extract_product_info element s
  = match card_fields element with
    | Ok r => (Ok r, s)
    | Raise e =>
        (Ok None,
         with_log ERROR
           (lit "Error extracting product info: " ++ str_exn e) s)
    end.
Proof.
  unfold extract_product_info, try_except, lift, bind, logger, ret.
  destruct (card_fields element); reflexivity.
Qed.

Lemma extract_product_info_emits (element : ElementHandle) (s : State)
    (p : Product) :
  fst (extract_product_info element s) = Ok (Some p)
  <-> card_fields element = Ok (Some p).
Proof.
  rewrite extract_product_info_eq.
  destruct (card_fields element) as [[q|]|e]; cbn [fst];
    split; intros H; try discriminate; congruence.
Qed.

(** The loop over the cards never raises, keeps the world, and appends
    the records of the cards in order. *)
Lemma for_product_elements_records (cards : list ElementHandle) :
  forall (products : list Product) (s : State),
  exists lg,
    for_product_elements cards products s
    = (Ok (products ++ page_records cards), mkState (world s) lg).
Proof.
  induction cards as [|element rest IH]; intros products s.
  - exists (log s). cbn. rewrite app_nil_r. now destruct s.
  - cbn [for_product_elements page_records flat_map].
    unfold bind at 1. unfold try_except at 1. unfold bind at 1.
    rewrite extract_product_info_eq.
    destruct (card_fields element) as [[p|]|e].
    + cbn [ret]. destruct (IH (products ++ [p]) s) as [lg Hlg].
      exists lg. rewrite Hlg. now rewrite <- app_assoc.
    + cbn [ret]. destruct (IH products s) as [lg Hlg].
      exists lg. rewrite Hlg. reflexivity.
    + cbn [ret].
      match goal with
      | |- context [for_product_elements rest products ?s1] =>
          destruct (IH products s1) as [lg Hlg]
      end.
      exists lg. rewrite Hlg. reflexivity.
Qed.

Lemma page_records_valid (cards : list ElementHandle) :
  List.length (page_records cards) = List.length (filter card_valid cards).
Proof.
  induction cards as [|element rest IH]; [reflexivity|].
  cbn [page_records flat_map filter].
  pose proof (card_fields_cases element) as H.
  rewrite length_app. fold (page_records rest). rewrite IH.
  destruct (card_fields element) as [[p|]|e].
  - destruct H as [-> _]. reflexivity.
  - rewrite H. reflexivity.
  - rewrite H. reflexivity.
Qed.

Lemma page_records_listing_only (cards : list ElementHandle) :
  Forall listing_only (page_records cards).
Proof.
  induction cards as [|element rest IH]; [constructor|].
  cbn [page_records flat_map]. apply Forall_app. split; [|exact IH].
  pose proof (card_fields_cases element) as H.
  destruct (card_fields element) as [[p|]|e]; constructor;
    [apply H | constructor].
Qed.

End ListingProperties.

Section ListingPages.

Context {rt : Runtime}.


Lemma scrape_products_per_page_loaded (url : str) (s : State)
    (cards : list ElementHandle) :
  page_loads url s cards ->
  fst (scrape_products_per_page url s) = Ok (page_records cards).
Proof.
  intros (w1 & pg & w2 & w3 & o & Hl & Hg & Hw & Hq & Hc).
  unfold scrape_products_per_page.
  unfold bind at 1. unfold logger at 1.
  unfold bind at 1. unfold await_browser at 1. unfold with_log; cbn [world log].
  rewrite Hl. unfold try_finally, try_except.
  unfold bind at 1. unfold await_browser at 1. unfold with_log; cbn [world log].
  rewrite Hg. unfold bind at 1. unfold await at 1. rewrite Hw.
  unfold bind at 1. unfold await at 1. rewrite Hq.
  unfold bind at 1.
  match goal with
  | |- context [for_product_elements cards [] ?s1] =>
      destruct (for_product_elements_records cards [] s1) as [lg Hlg];
      rewrite Hlg
  end.
  unfold bind, logger, ret, await_browser. unfold with_log; cbn [world log].
  rewrite Hc. reflexivity.
Qed.

(** Whatever the browser does, a page scrape gives the records of some
    list of cards or raises; what it raises is never an
    [HTTPException]. *)
Lemma scrape_products_per_page_cases (url : str) (s : State) :
  match fst (scrape_products_per_page url s) with
  | Ok ps => exists cards, ps = page_records cards
  | Raise e => is_http_exception e = false
  end.
Proof.
  unfold scrape_products_per_page.
  unfold bind at 1. unfold logger at 1.
  unfold bind at 1. unfold await_browser at 1. unfold with_log; cbn [world log].
  destruct (launch (world s)) as [[[]|m] w1]; [|reflexivity].
  unfold try_finally, try_except.
  unfold bind at 1. unfold await_browser at 1. unfold with_log; cbn [world log].
  destruct (new_page_goto url 60000 w1) as [[pg|m] w2].
  2:{ unfold bind, logger, raise, await_browser. unfold with_log; cbn [world log].
      destruct (close w2) as [[[]|m'] w3]; reflexivity. }
  unfold bind at 1. unfold await at 1.
  destruct (page_wait_for_selector pg (lit "article") 10000) as [o|m].
  2:{ unfold bind, logger, raise, await_browser. unfold with_log; cbn [world log].
      destruct (close w2) as [[[]|m'] w3]; reflexivity. }
  unfold bind at 1. unfold await at 1.
  destruct (page_query_selector_all pg (lit "article")) as [cards|m].
  2:{ unfold bind, logger, raise, await_browser. unfold with_log; cbn [world log].
      destruct (close w2) as [[[]|m'] w3]; reflexivity. }
  unfold bind at 1.
  match goal with
  | |- context [for_product_elements cards [] ?s1] =>
      destruct (for_product_elements_records cards [] s1) as [lg Hlg];
      rewrite Hlg
  end.
  unfold bind, logger, ret, await_browser. unfold with_log; cbn [world log].
  destruct (close w2) as [[[]|m'] w3]; cbn [fst]; [|reflexivity].
  exists cards. reflexivity.
Qed.

End ListingPages.


(** C1 fails as worded.  A card without a title element is not dropped:
    it yields a record under the placeholder title. *)
Lemma untitled_card_is_emitted :
  title_missing (untitled_card (lit "/item/1")) = true
  /\ fst (extract_product_info (untitled_card (lit "/item/1")) (fresh []))
     = Ok (Some {| title := lit "No title"; price := None;
                   location := None; date_posted := None;
                   image_url := None;
                   product_url := lit "https://www.tayara.tn/item/1";
                   description := None; seller_name := None;
                   seller_contact := None;
                   is_delivery_available := Some false |})
  /\ ~ emits_only_with_title_element.
Proof.
  assert (H : fst (extract_product_info (untitled_card (lit "/item/1"))
                     (fresh []))
              = Ok (Some {| title := lit "No title"; price := None;
                            location := None; date_posted := None;
                            image_url := None;
                            product_url := lit "https://www.tayara.tn/item/1";
                            description := None; seller_name := None;
                            seller_contact := None;
                            is_delivery_available := Some false |}))
    by (vm_compute; reflexivity).
  split; [vm_compute; reflexivity|]. split; [exact H|].
  intros Hall. destruct (Hall _ _ _ H) as (t & Ht & _).
  vm_compute in Ht. discriminate.
Qed.

(** C1, amended.  The listing extractor never raises.  It emits a record
    only for a card whose title element is missing, under the title
    ["No title"], or whose title text is not blank, under that text
    trimmed; the title of an emitted record is never blank.  A card whose
    title element is there with a blank text yields no record.  A card
    yields a record exactly when it is valid, and a page that loads
    yields the records of its valid cards in the order of the page, as
    many as there are valid cards. *)
Theorem listing_extractor_records {rt : Runtime} :
  (forall element s, exists r s',
      extract_product_info element s = (Ok r, s'))
  /\ (forall element s p,
        fst (extract_product_info element s) = Ok (Some p) ->
        blank (title p) = false
        /\ ((title_missing element = true /\ title p = lit "No title")
            \/ exists t, title_text element = Some t /\ blank t = false
                         /\ title p = strip t))
  /\ (forall element s t,
        title_text element = Some t -> blank t = true ->
        fst (extract_product_info element s) = Ok None)
  /\ (forall element s,
        card_valid element = true
        <-> exists p, fst (extract_product_info element s) = Ok (Some p))
  /\ (forall url s cards,
        page_loads url s cards ->
        fst (scrape_products_per_page url s) = Ok (page_records cards)
        /\ List.length (page_records cards)
           = List.length (filter card_valid cards)).
Proof.
  split; [|split; [|split; [|split]]].
  - intros element s. rewrite extract_product_info_eq.
    destruct (card_fields element); eauto.
  - intros element s p H. apply extract_product_info_emits in H.
    pose proof (card_fields_cases element) as Hc. rewrite H in Hc.
    destruct Hc as (_ & _ & Ht). split; [|exact Ht].
    destruct Ht as [[_ ->]|(t & _ & Hb & ->)].
    + vm_compute. reflexivity.
    + now rewrite blank_strip.
  - intros element s t Ht Hb. rewrite extract_product_info_eq.
    pose proof (card_fields_cases element) as Hc.
    destruct (card_fields element) as [[p|]|e]; cbn [fst]; try reflexivity.
    destruct Hc as (_ & _ & [[Hm _]|(t' & Ht' & Hb' & _)]).
    + unfold title_missing in Hm. unfold title_text in Ht.
      destruct (query_selector element (lit "h2.card-title")) as [[?|]|];
        discriminate.
    + congruence.
  - intros element s. pose proof (card_fields_cases element) as Hc.
    split.
    + intros Hv. destruct (card_fields element) as [[p|]|e] eqn:Hf;
        try congruence.
      exists p. now apply extract_product_info_emits.
    + intros [p Hp]. apply extract_product_info_emits in Hp.
      rewrite Hp in Hc. apply Hc.
  - intros url s cards Hl. split.
    + now apply scrape_products_per_page_loaded.
    + apply page_records_valid.
Qed.


Lemma listing_extractor_records_witness :
  fst (scrape_products_per_page (lit "https://www.tayara.tn/ads/c/x/")
         (fresh [PwOk mixed_page]))
  = Ok [ {| title := lit "Samsung S20"; price := None; location := None;
            date_posted := None; image_url := None;
            product_url := lit "https://www.tayara.tn/item/1";
            description := None; seller_name := None;
            seller_contact := None; is_delivery_available := Some false |};
         {| title := lit "No title"; price := None; location := None;
            date_posted := None; image_url := None;
            product_url := lit "https://www.tayara.tn/item/3";
            description := None; seller_name := None;
            seller_contact := None; is_delivery_available := Some false |} ].
Proof.
  destruct (@listing_extractor_records scripted) as (_ & _ & _ & _ & H).
  destruct (H (lit "https://www.tayara.tn/ads/c/x/") (fresh [PwOk mixed_page])
              [card (lit " Samsung S20 ") (lit "/item/1");
               blank_card;
               untitled_card (lit "https://www.tayara.tn/item/3");
               element [] []
                 [(lit "h2.card-title", element (lit "iPhone") [] []);
                  (lit "a", element [] [] [])]]) as [Hr _].
  - exists (mkScript (PwOk tt) (PwOk tt) [PwOk mixed_page] []).
    exists mixed_page.
    exists (mkScript (PwOk tt) (PwOk tt) []
              [lit "https://www.tayara.tn/ads/c/x/"]).
    exists (mkScript (PwOk tt) (PwOk tt) []
              [lit "https://www.tayara.tn/ads/c/x/"]).
    exists None. repeat split; reflexivity.
  - rewrite Hr. vm_compute. reflexivity.
Defined.


(* ===================================================================== *)
(** ** Properties of the pagination loop *)
(* ===================================================================== *)

Section PaginationProperties.

Context {rt : Runtime}.

Variables (query category subcategory : str).
Variables (city condition : option str).
Variables (min_price max_price : option Z).

Abbreviation turn_of :=
  (scrape_turn query category subcategory city condition min_price max_price).
Abbreviation loop :=
  (while_pages query category subcategory city condition min_price max_price).
Abbreviation outcome :=
  (page_outcome query category subcategory city condition min_price max_price).

(** How a turn ends, from what the page gave. *)
Lemma scrape_turn_cases (current_page : Z) (all_products : list Product)
    (s : State) :
  match outcome current_page s with
  | (Ok ps, s2) =>
      exists s',
        turn_of current_page all_products s
        = (Ok (match ps with
               | [] => Break all_products
               | _ :: _ =>
                   if Z.of_nat (List.length ps) <? 30
                   then Break (all_products ++ ps)
                   else NextPage (all_products ++ ps)
               end), s')
        /\ world s' = world s2
  | (Raise e, s2) =>
      exists s',
        turn_of current_page all_products s = (Ok (NextPage all_products), s')
        /\ world s' = world s2
  end.
Proof.
  unfold page_outcome, scrape_turn, try_except, bind, lift, logger, ret.
  destruct (build_url query category (Some subcategory) city condition
              min_price max_price (Some current_page)) as [url|e].
  2:{ eexists. split; reflexivity. }
  destruct (scrape_products_per_page url _) as [[[|p ps]|e] s2].
  - eexists. split; reflexivity.
  - destruct (Z.of_nat (List.length (p :: ps)) <? 30);
      eexists; split; reflexivity.
  - eexists. split; reflexivity.
Qed.

(** One turn of the [while] loop. *)
Lemma while_pages_turn (max_pages current_page : Z)
    (all_products : list Product) (s : State) :
  loop max_pages current_page all_products s
  = if current_page <=? max_pages then
      match turn_of current_page all_products s with
      | (Ok (Break all_products), s') => (Ok all_products, s')
      | (Ok (NextPage all_products), s') =>
          loop max_pages (current_page + 1) all_products s'
      | (Raise e, s') => (Raise e, s')
      end
    else (Ok all_products, s).
Proof.
  rewrite while_pages_equation_1.
  destruct (Z_le_gt_dec current_page max_pages) as [Hle|Hgt].
  - assert (H : (current_page <=? max_pages) = true) by (apply Z.leb_le; lia).
    rewrite H. cbn [while_pages_unfold_clause_1]. unfold bind.
    destruct (turn_of current_page all_products s) as [[[a|a]|e] s'];
      reflexivity.
  - assert (H : (current_page <=? max_pages) = false) by (apply Z.leb_gt; lia).
    rewrite H. reflexivity.
Qed.

(** A page whose scrape raises is skipped: the loop goes on with the
    next page and the aggregate as it was. *)
Lemma while_pages_skips_failed_page (max_pages current_page : Z)
    (all_products : list Product) (s : State) (e : exn) (s2 : State) :
  current_page <= max_pages ->
  outcome current_page s = (Raise e, s2) ->
  exists s',
    loop max_pages current_page all_products s
    = loop max_pages (current_page + 1) all_products s'
    /\ world s' = world s2.
Proof.
  intros Hle Hout.
  assert (Hb : (current_page <=? max_pages) = true) by (apply Z.leb_le; lia).
  pose proof (scrape_turn_cases current_page all_products s) as Ht.
  rewrite Hout in Ht. destruct Ht as (s' & Ht & Hw).
  exists s'. rewrite while_pages_turn, Hb, Ht. auto.
Qed.

(** A property of [all_products] that appending the records of a page
    keeps is kept by the whole loop, which always returns. *)
Lemma while_pages_invariant (P : list Product -> Prop) :
  (forall all_products cards,
      P all_products -> P (all_products ++ page_records cards)) ->
  forall (n : nat) (max_pages current_page : Z)
         (all_products : list Product) (s : State),
    Z.to_nat (max_pages + 1 - current_page) = n ->
    P all_products ->
    exists all' s',
      loop max_pages current_page all_products s = (Ok all', s') /\ P all'.
Proof.
  intros Hstep. induction n as [|n IH];
    intros max_pages current_page all_products s Hn HP;
    rewrite while_pages_turn.
  - assert (H : (current_page <=? max_pages) = false) by (apply Z.leb_gt; lia).
    rewrite H. eauto.
  - assert (H : (current_page <=? max_pages) = true) by (apply Z.leb_le; lia).
    rewrite H.
    assert (Hn' : Z.to_nat (max_pages + 1 - (current_page + 1)) = n) by lia.
    pose proof (scrape_turn_cases current_page all_products s) as Ht.
    pose proof (scrape_products_per_page_cases) as Hpg.
    unfold page_outcome in Ht.
    destruct (build_url query category (Some subcategory) city condition
                min_price max_price (Some current_page)) as [url|e].
    + specialize (Hpg url (with_log INFO
                             (lit "Scraping page " ++ str_of_int current_page
                              ++ lit ": " ++ url) s)).
      destruct (scrape_products_per_page url _) as [[ps|e] s2];
        cbn [fst] in Hpg; destruct Ht as (s' & -> & _).
      * destruct Hpg as [cards ->].
        destruct (page_records cards) as [|p ps] eqn:Hps; [eauto|].
        rewrite <- Hps.
        destruct (Z.of_nat (List.length (page_records cards)) <? 30).
        -- eexists. eexists. split; [reflexivity|]. now apply Hstep.
        -- apply (IH _ _ _ _ Hn'). now apply Hstep.
      * now apply (IH _ _ _ _ Hn').
    + destruct Ht as (s' & -> & _). now apply (IH _ _ _ _ Hn').
Qed.

Lemma scrape_products_eq (max_pages : Z) (s : State) :
  scrape_products query category subcategory city condition
    min_price max_price max_pages s
  = match loop max_pages 1 [] s with
    | (Ok all_products, s') =>
        (Ok {| success := true;
               total_products := Z.of_nat (List.length all_products);
               products := all_products;
               error := None |}, s')
    | (Raise e, s') => (Raise e, s')
    end.
Proof. reflexivity. Qed.

End PaginationProperties.

(** A search always returns, and what it returns is built from the list
    the loop leaves. *)
Lemma scrape_products_returns {rt : Runtime}
    (query category subcategory : str) (city condition : option str)
    (min_price max_price : option Z) (max_pages : Z) (s : State) :
  exists r s',
    scrape_products query category subcategory city condition
      min_price max_price max_pages s = (Ok r, s')
    /\ success r = true
    /\ total_products r = Z.of_nat (List.length (products r))
    /\ error r = None.
Proof.
  rewrite scrape_products_eq.
  destruct (@while_pages_invariant rt query category subcategory city
                condition min_price max_price (fun _ => True))
      with (n := Z.to_nat (max_pages + 1 - 1)) (max_pages := max_pages)
           (current_page := 1) (all_products := @nil Product) (s := s)
    as (all' & s' & -> & _); auto.
  eexists. eexists. split; [reflexivity|]. cbn. auto.
Qed.


(** C4.  While the page number is within the maximum: a page that gives
    no product ends the loop with the aggregate as it was; a page that
    gives fewer than 30 ends it with its products appended; a page of
    30 or more has its products appended and the loop goes on with the
    next page.  Past the maximum the loop ends.  In each case the browser
    is not used again before the loop goes on.  Pages of 30, 30 and 12
    products stop the search after page 3 with the 72 products in scrape
    order, and a first page of no product stops it after page 1 with no
    product, flagged as a success. *)
Theorem pagination_stops :
  (forall (rt : Runtime) query category subcategory city condition
          min_price max_price max_pages current_page all_products
          (s : State) ps s2,
      current_page <= max_pages ->
      page_outcome query category subcategory city condition
        min_price max_price current_page s = (Ok ps, s2) ->
      (ps = [] ->
       exists s',
         while_pages query category subcategory city condition min_price
           max_price max_pages current_page all_products s
         = (Ok all_products, s')
         /\ world s' = world s2)
      /\ (ps <> [] -> Z.of_nat (List.length ps) < 30 ->
          exists s',
            while_pages query category subcategory city condition min_price
              max_price max_pages current_page all_products s
            = (Ok (all_products ++ ps), s')
            /\ world s' = world s2)
      /\ (30 <= Z.of_nat (List.length ps) ->
          exists s',
            while_pages query category subcategory city condition min_price
              max_price max_pages current_page all_products s
            = while_pages query category subcategory city condition
                min_price max_price max_pages (current_page + 1)
                (all_products ++ ps) s'
            /\ world s' = world s2))
  /\ (forall (rt : Runtime) query category subcategory city condition
             min_price max_price max_pages current_page all_products
             (s : State),
         max_pages < current_page ->
         while_pages query category subcategory city condition min_price
           max_price max_pages current_page all_products s
         = (Ok all_products, s))
  /\ (let run :=
        scrape_products (lit "Samsung") (lit "Informatique") (lit "Phones")
          None None None None 5
          (fresh [PwOk (full_page (lit "a") 30); PwOk (full_page (lit "b") 30);
                  PwOk (full_page (lit "c") 12);
                  PwOk (full_page (lit "d") 30)]) in
      fst run
      = Ok {| success := true; total_products := 72;
              products := repeat (record_of (lit "a")) 30
                          ++ repeat (record_of (lit "b")) 30
                          ++ repeat (record_of (lit "c")) 12;
              error := None |}
      /\ visited (world (snd run))
         = [phones_url "1"; phones_url "2"; phones_url "3"]
      /\ upcoming (world (snd run)) = [PwOk (full_page (lit "d") 30)])
  /\ (let run :=
        scrape_products (lit "Samsung") (lit "Informatique") (lit "Phones")
          None None None None 3
          (fresh [PwOk (listing_page [blank_card]);
                  PwOk (full_page (lit "b") 30)]) in
      fst run
      = Ok {| success := true; total_products := 0; products := [];
              error := None |}
      /\ visited (world (snd run)) = [phones_url "1"]
      /\ upcoming (world (snd run)) = [PwOk (full_page (lit "b") 30)]).
Proof.
  split; [|split; [|split]].
  - intros rt query category subcategory city condition min_price max_price
      max_pages current_page all_products s ps s2 Hle Hout.
    assert (Hb : (current_page <=? max_pages) = true)
      by (apply Z.leb_le; lia).
    pose proof (scrape_turn_cases query category subcategory city condition
                  min_price max_price current_page all_products s) as Ht.
    rewrite Hout in Ht. destruct Ht as (s' & Ht & Hw).
    repeat split.
    + intros ->. exists s'. rewrite while_pages_turn, Hb, Ht. auto.
    + intros Hne Hlt. exists s'. rewrite while_pages_turn, Hb, Ht.
      destruct ps as [|p ps]; [contradiction|].
      apply Z.ltb_lt in Hlt. rewrite Hlt. auto.
    + intros Hge. exists s'. rewrite while_pages_turn, Hb, Ht.
      destruct ps as [|p ps]; [cbn in Hge; lia|].
      assert (Hf : (Z.of_nat (List.length (p :: ps)) <? 30) = false)
        by (apply Z.ltb_ge; lia).
      rewrite Hf. auto.
  - intros rt query category subcategory city condition min_price max_price
      max_pages current_page all_products s Hgt.
    rewrite while_pages_turn.
    assert (Hb : (current_page <=? max_pages) = false)
      by (apply Z.leb_gt; lia).
    now rewrite Hb.
  - vm_compute. repeat split; reflexivity.
  - vm_compute. repeat split; reflexivity.
Qed.

Lemma pagination_stops_witness :
  exists s',
    while_pages (lit "Samsung") (lit "Informatique") (lit "Phones")
      None None None None 3 1 [] (fresh [PwOk (full_page (lit "c") 12)])
    = (Ok ([] ++ repeat (record_of (lit "c")) 12), s')
    /\ upcoming (world s') = [].
Proof.
  destruct pagination_stops as [H _].
  destruct (H scripted (lit "Samsung") (lit "Informatique") (lit "Phones")
              None None None None 3 1 []
              (fresh [PwOk (full_page (lit "c") 12)])
              (repeat (record_of (lit "c")) 12)
              (snd (page_outcome (lit "Samsung") (lit "Informatique")
                      (lit "Phones") None None None None 1
                      (fresh [PwOk (full_page (lit "c") 12)]))))
    as (_ & Hfew & _).
  - lia.
  - vm_compute. reflexivity.
  - destruct Hfew as (s' & Hrun & Hw).
    + discriminate.
    + vm_compute. reflexivity.
    + exists s'. split; [exact Hrun|]. rewrite Hw. vm_compute. reflexivity.
Defined.

(** C10.  A record of the listing extractor carries no detail-page field:
    description, seller name and seller contact are absent and the
    delivery flag is false.  The same holds for every record of a page
    scrape and for every record a search aggregates. *)
Theorem listing_records_carry_no_detail {rt : Runtime} :
  (forall element s p,
      fst (extract_product_info element s) = Ok (Some p) ->
      listing_only p)
  /\ (forall url s ps,
        fst (scrape_products_per_page url s) = Ok ps ->
        Forall listing_only ps)
  /\ (forall query category subcategory city condition min_price max_price
             max_pages s r,
        fst (scrape_products query category subcategory city condition
               min_price max_price max_pages s) = Ok r ->
        Forall listing_only (products r)).
Proof.
  split; [|split].
  - intros element s p H. apply extract_product_info_emits in H.
    pose proof (card_fields_cases element) as Hc. rewrite H in Hc.
    apply Hc.
  - intros url s ps H.
    pose proof (scrape_products_per_page_cases url s) as Hc.
    rewrite H in Hc. destruct Hc as [cards ->].
    apply page_records_listing_only.
  - intros query category subcategory city condition min_price max_price
      max_pages s r H.
    rewrite scrape_products_eq in H.
    destruct (@while_pages_invariant rt query category subcategory city
                condition min_price max_price (Forall listing_only))
      with (n := Z.to_nat (max_pages + 1 - 1)) (max_pages := max_pages)
           (current_page := 1) (all_products := @nil Product) (s := s)
      as (all' & s' & Hloop & HP).
    + intros all_products cards Hall. apply Forall_app. split; [exact Hall|].
      apply page_records_listing_only.
    + reflexivity.
    + constructor.
    + rewrite Hloop in H. cbn [fst] in H. injection H as <-. exact HP.
Qed.

Lemma listing_records_carry_no_detail_witness :
  listing_only
    {| title := lit "Samsung S20"; price := None; location := None;
       date_posted := None; image_url := None;
       product_url := lit "https://www.tayara.tn/item/1";
       description := None; seller_name := None;
       seller_contact := None; is_delivery_available := Some false |}.
Proof.
  apply (proj1 (@listing_records_carry_no_detail scripted)
           (card (lit " Samsung S20 ") (lit "/item/1")) (fresh [])).
  vm_compute. reflexivity.
Defined.

(** C9.  Whatever the pages give, failures included, a search returns,
    flagged as a success, and the count it reports is the length of the
    list it returns. *)
Theorem total_products_is_length {rt : Runtime}
    (query category subcategory : str) (city condition : option str)
    (min_price max_price : option Z) (max_pages : Z) (s : State) :
  exists r s',
    scrape_products query category subcategory city condition
      min_price max_price max_pages s = (Ok r, s')
    /\ success r = true
    /\ total_products r = Z.of_nat (List.length (products r))
    /\ error r = None.
Proof. apply scrape_products_returns. Qed.

(* ===================================================================== *)
(** ** Properties of the detail extractor *)
(* ===================================================================== *)

Section DetailProperties.

Context {rt : Runtime}.

(** The contact block as a function of the page: the contact of the
    [try] body, or no contact and one warning. *)
Lemma extract_contact_eq (page : Page) (s : State) :
  extract_contact page s
  = match reveal_contact page with
    | Ok contact => (Ok contact, s)
    | Raise e =>
        (Ok None,
         with_log WARNING
           (lit "Could not extract contact info: " ++ str_exn e) s)
    end.
Proof.
  unfold extract_contact, try_except, lift, bind, logger, ret.
  destruct (reveal_contact page); reflexivity.
Qed.

(** Every block but the contact reads the page through
    [page.query_selector] alone. *)
Lemma page_text_depends {A} (p1 p2 : Page) (selector : str) (default : A)
    (keep : str -> A) :
  page_query_selector p1 = page_query_selector p2 ->
  page_text p1 selector default keep = page_text p2 selector default keep.
Proof. intros H. unfold page_text. now rewrite H. Qed.

Lemma page_price_description_depends (p1 p2 : Page) :
  page_query_selector p1 = page_query_selector p2 ->
  page_price_description p1 = page_price_description p2.
Proof. intros H. unfold page_price_description. now rewrite H. Qed.

Lemma page_location_date_depends (p1 p2 : Page) :
  page_query_selector p1 = page_query_selector p2 ->
  page_location_date p1 = page_location_date p2.
Proof. intros H. unfold page_location_date. now rewrite H. Qed.

Lemma page_delivery_depends (p1 p2 : Page) :
  page_query_selector p1 = page_query_selector p2 ->
  page_delivery p1 = page_delivery p2.
Proof. intros H. unfold page_delivery. now rewrite H. Qed.

Lemma page_image_url_depends (p1 p2 : Page) :
  page_query_selector p1 = page_query_selector p2 ->
  page_image_url p1 = page_image_url p2.
Proof. intros H. unfold page_image_url. now rewrite H. Qed.

(** Two pages that differ in nothing but the reveal of the phone number
    fail alike or give the same product up to the contact. *)
Lemma page_fields_whatever_the_reveal (url : str) (p1 p2 : Page)
    (s : State) :
  page_query_selector p1 = page_query_selector p2 ->
  match fst (page_fields url p1 s), fst (page_fields url p2 s) with
  | Ok a, Ok b => a = with_contact b (seller_contact a)
  | Raise e1, Raise e2 => e1 = e2
  | _, _ => False
  end.
Proof.
  intros H. unfold page_fields.
  rewrite !(page_text_depends p1 p2 _ _ _ H).
  rewrite (page_price_description_depends p1 p2 H).
  rewrite (page_location_date_depends p1 p2 H).
  rewrite (page_delivery_depends p1 p2 H).
  rewrite (page_image_url_depends p1 p2 H).
  unfold bind, lift.
  destruct (page_text p2 _ (lit "No title") _) as [t|e];
    [|reflexivity].
  destruct (page_text p2 _ None _) as [sn|e]; [|reflexivity].
  destruct (page_price_description p2) as [[pr d]|e]; [|reflexivity].
  destruct (page_location_date p2) as [[loc dt]|e]; [|reflexivity].
  destruct (page_delivery p2) as [dl|e]; [|reflexivity].
  rewrite !extract_contact_eq.
  destruct (reveal_contact p1) as [c1|e1];
    destruct (reveal_contact p2) as [c2|e2];
    destruct (page_image_url p2) as [im|e]; try reflexivity;
    destruct d as [|d]; reflexivity.
Qed.

(** A page without a price element never gives a product: the local
    [description] is read unbound (or an earlier read has failed). *)
Lemma page_fields_without_price (url : str) (page : Page) (s : State) :
  page_query_selector page (lit "data") = PwOk None ->
  exists e s', page_fields url page s = (Raise e, s').
Proof.
  intros H. unfold page_fields, bind, lift.
  destruct (page_text page _ (lit "No title") _) as [t|e]; [|eauto].
  destruct (page_text page _ None _) as [sn|e]; [|eauto].
  unfold page_price_description. rewrite H. cbn [awaited rbind].
  destruct (page_location_date page) as [[loc dt]|e]; [|eauto].
  destruct (page_delivery page) as [dl|e]; [|eauto].
  rewrite extract_contact_eq.
  destruct (reveal_contact page) as [c|e];
    destruct (page_image_url page) as [im|e']; cbn; eauto.
Qed.

(** A location text without a comma never gives a product: the second
    part of the split is read out of range. *)
Lemma page_location_date_no_comma (page : Page) (location_elem : ElementHandle)
    (text : str) :
  page_query_selector page (lit "div.flex.items-center.space-x-2.mb-1 span")
  = PwOk (Some location_elem) ->
  text_content location_elem = PwOk (Some text) ->
  truthy text = true ->
  List.length (split comma text) = 1%nat ->
  page_location_date page = Raise (Builtin IndexError).
Proof.
  intros Hq Ht Hn Hl. unfold page_location_date.
  rewrite Hq. cbn [awaited rbind]. rewrite Ht. cbn [awaited rbind].
  destruct text as [|c text]; [discriminate|].
  destruct (split comma (c :: text)) as [|p0 [|p1 ps]]; try discriminate.
  reflexivity.
Qed.

End DetailProperties.

(** C8.  The reveal of the seller's phone number never raises out of its
    block.  Whatever fails in it is caught and logged as a warning, and
    the contact stays absent: so with reveal buttons but no second one,
    and so when the wait for the [tel:] link fails.  When the sequence
    succeeds, the contact is the text of the link without its first four
    characters (and trimmed).  The rest of the extraction fails or succeeds
    regardless of the reveal, which changes nothing but the contact. *)
Theorem contact_reveal_is_contained {rt : Runtime} :
  (forall page s, exists contact s',
      extract_contact page s = (Ok contact, s'))
  /\ (forall page s e,
        reveal_contact page = Raise e ->
        extract_contact page s
        = (Ok None,
           with_log WARNING
             (lit "Could not extract contact info: " ++ str_exn e) s))
  /\ (forall page b,
        page_query_selector_all page reveal_button_selector = PwOk [b] ->
        reveal_contact page = Raise (Builtin IndexError))
  /\ (forall page b0 b1 rest msg,
        page_query_selector_all page reveal_button_selector
        = PwOk (b0 :: b1 :: rest) ->
        click b1 = PwOk tt ->
        page_wait_for_selector page tel_link_selector 5000 = PwError msg ->
        reveal_contact page = Raise (PlaywrightError msg))
  /\ (forall page s b0 b1 rest link t,
        page_query_selector_all page reveal_button_selector
        = PwOk (b0 :: b1 :: rest) ->
        click b1 = PwOk tt ->
        page_wait_for_selector page tel_link_selector 5000
        = PwOk (Some link) ->
        text_content link = PwOk (Some t) ->
        extract_contact page s = (Ok (Some (strip (slice_from 4 t))), s))
  /\ (forall url p1 p2 s,
        page_query_selector p1 = page_query_selector p2 ->
        match fst (page_fields url p1 s), fst (page_fields url p2 s) with
        | Ok a, Ok b => a = with_contact b (seller_contact a)
        | Raise e1, Raise e2 => e1 = e2
        | _, _ => False
        end).
Proof.
  split; [|split; [|split; [|split; [|split]]]].
  - intros page s. rewrite extract_contact_eq.
    destruct (reveal_contact page); eauto.
  - intros page s e H. rewrite extract_contact_eq, H. reflexivity.
  - intros page b H. unfold reveal_contact. rewrite H. reflexivity.
  - intros page b0 b1 rest msg Hb Hc Hw. unfold reveal_contact.
    rewrite Hb. cbn [awaited rbind getitem nth_error]. rewrite Hc.
    cbn [awaited rbind]. rewrite Hw. reflexivity.
  - intros page s b0 b1 rest link t Hb Hc Hw Ht.
    rewrite extract_contact_eq. unfold reveal_contact.
    rewrite Hb. cbn [awaited rbind getitem nth_error]. rewrite Hc.
    cbn [awaited rbind]. rewrite Hw. cbn [awaited rbind]. rewrite Ht.
    cbn [awaited rbind]. destruct t; reflexivity.
  - intros url p1 p2 s H. now apply page_fields_whatever_the_reveal.
Qed.

Lemma contact_reveal_is_contained_witness :
  extract_contact complete_page (fresh [])
  = (Ok (Some (lit "12 345 678")), fresh [])
  /\ extract_contact
       (detail_page [] [a_button] (tel_link (lit "Tel: 12 345 678")))
       (fresh [])
     = (Ok None,
        with_log WARNING
          (lit "Could not extract contact info: list index out of range")
          (fresh [])).
Proof.
  destruct (@contact_reveal_is_contained scripted)
    as (_ & Hcaught & Hone & _ & Hok & _).
  split.
  - rewrite (Hok complete_page (fresh []) a_button a_button []
               (element (lit "Tel: 12 345 678 ") [] [])
               (lit "Tel: 12 345 678 ")
               eq_refl eq_refl eq_refl eq_refl).
    vm_compute. reflexivity.
  - rewrite (Hcaught _ (fresh []) _
               (Hone (detail_page [] [a_button]
                        (tel_link (lit "Tel: 12 345 678")))
                     a_button eq_refl)).
    vm_compute. reflexivity.
Defined.

(** C2, on the code.  The description is not computed on its own: the
    block that assigns it runs only when the page has a price element,
    and nothing assigns it otherwise.  On a page with a description and
    no price element, and on a page with a price and no description
    paragraph, the extraction fails on the unbound local; on a page with
    both, the description is the text in front of ["Tel:"]. *)
Theorem description_depends_on_price :
  fst (get_product_page_info phone_url (fresh [PwOk page_without_price]))
  = Raise (ValueError
             (lit "Failed to extract product info: "
              ++ cpython_text (UnboundLocalError "description")))
  /\ fst (get_product_page_info phone_url
            (fresh [PwOk page_without_description]))
     = Raise (ValueError
                (lit "Failed to extract product info: "
                 ++ cpython_text (UnboundLocalError "description")))
  /\ match fst (get_product_page_info phone_url (fresh [PwOk complete_page]))
     with
     | Ok p => description p = Some (lit "Great phone.")
     | Raise _ => False
     end.
Proof. vm_compute. repeat split; reflexivity. Qed.

(** C3, on the code.  The detail extractor reads the second part of the
    split without looking at the number of parts.  A location text
    without a comma fails the extraction with an index error, where the
    listing extractor gives the whole text as the location and no date;
    with a comma, both give the two trimmed parts. *)
Theorem detail_split_needs_a_comma :
  fst (get_product_page_info phone_url (fresh [PwOk page_without_comma]))
  = Raise (ValueError
             (lit "Failed to extract product info: "
              ++ cpython_text IndexError))
  /\ split_location_date (Some (lit "Tunis")) = Ok (Some (lit "Tunis"), None)
  /\ match fst (get_product_page_info phone_url (fresh [PwOk complete_page]))
     with
     | Ok p => location p = Some (lit "Tunis")
               /\ date_posted p = Some (lit "2 days ago")
     | Raise _ => False
     end
  /\ split_location_date (Some (lit "Tunis, 2 days ago"))
     = Ok (Some (lit "Tunis"), Some (lit "2 days ago")).
Proof. vm_compute. repeat split; reflexivity. Qed.

(* ===================================================================== *)
(** ** Properties of the endpoints *)
(* ===================================================================== *)

Section EndpointProperties.

Context {rt : Runtime}.



End EndpointProperties.



(** C7.  With both bounds given and the lower above the upper, [/search]
    is refused with status 400, a client error, with the browser and the
    log untouched.  With an acceptable range, an exception of the
    pagination (any that is not an [HTTPException]) becomes a response
    flagged as a failure, with no product and the text of the exception.
    With the scraper of the module, a search over an acceptable range
    never raises and is flagged as a success. *)
Theorem search_endpoint_errors {rt : Runtime} :
  (forall scraper query category subcategory city status lo hi max_pages s,
      lo > hi ->
      search_products_on scraper query category subcategory city status
        (Some lo) (Some hi) max_pages s
      = (Raise (HTTPException 400
                  (lit "min_price cannot be greater than max_price")), s)
      /\ client_error
           (status_of
              (respond
                 (fst (search_products_on scraper query category
                         subcategory city status (Some lo) (Some hi)
                         max_pages s))))
         = true)
  /\ (forall scraper query category subcategory city status min_price
             max_price max_pages s e s',
        price_range_ok min_price max_price = true ->
        scrape_products_of scraper query category subcategory city status
          min_price max_price max_pages s = (Raise e, s') ->
        is_http_exception e = false ->
        search_products_on scraper query category subcategory city status
          min_price max_price max_pages s
        = (Ok {| success := false; total_products := 0; products := [];
                 error := Some (str_exn e) |},
           with_log ERROR (lit "Search error: " ++ str_exn e) s'))
  /\ (forall query category subcategory city status min_price max_price
             max_pages s,
        price_range_ok min_price max_price = true ->
        exists response,
          fst (search_products query category subcategory city status
                 min_price max_price max_pages s) = Ok response
          /\ success response = true).
Proof.
  split; [|split].
  - intros scraper query category subcategory city status lo hi max_pages s
      Hgt.
    assert (Hb : (lo >? hi) = true) by (apply Z.gtb_lt; lia).
    assert (Hrun : search_products_on scraper query category subcategory
                     city status (Some lo) (Some hi) max_pages s
                   = (Raise (HTTPException 400
                               (lit "min_price cannot be greater than max_price")),
                      s)).
    { unfold search_products_on, try_except, bind. rewrite Hb. reflexivity. }
    rewrite Hrun. split; reflexivity.
  - intros scraper query category subcategory city status min_price
      max_price max_pages s e s' Hok Hraise Hhttp.
    unfold search_products_on, try_except, bind.
    assert (Hcheck :
              (match min_price, max_price with
               | Some lo, Some hi =>
                   if lo >? hi
                   then raise (HTTPException 400
                                 (lit "min_price cannot be greater than max_price"))
                   else ret tt
               | _, _ => ret tt
               end) s = (Ok tt, s)).
    { destruct min_price as [lo|], max_price as [hi|]; try reflexivity.
      cbn in Hok. destruct (lo >? hi); [discriminate | reflexivity]. }
    rewrite Hcheck, Hraise, Hhttp. reflexivity.
  - intros query category subcategory city status min_price max_price
      max_pages s Hok.
    unfold search_products, search_products_on, try_except, bind.
    assert (Hcheck :
              (match min_price, max_price with
               | Some lo, Some hi =>
                   if lo >? hi
                   then raise (HTTPException 400
                                 (lit "min_price cannot be greater than max_price"))
                   else ret tt
               | _, _ => ret tt
               end) s = (Ok tt, s)).
    { destruct min_price as [lo|], max_price as [hi|]; try reflexivity.
      cbn in Hok. destruct (lo >? hi); [discriminate | reflexivity]. }
    rewrite Hcheck. cbn [scraper scrape_products_of].
    destruct (scrape_products_returns query category subcategory city
                status min_price max_price max_pages s)
      as (r & s' & -> & Hs & _).
    exists r. split; [reflexivity | exact Hs].
Qed.

Lemma search_endpoint_errors_witness :
  search_products (lit "Samsung") (lit "Informatique") (lit "Phones")
    None None (Some 5000) (Some 1000) 3 (fresh [])
  = (Raise (HTTPException 400
              (lit "min_price cannot be greater than max_price")), fresh [])
  /\ fst (search_products_on
            (failing_scraper (ValueError (lit "browser crashed")))
            (lit "Samsung") (lit "Informatique") (lit "Phones")
            None None (Some 1000) (Some 5000) 3 (fresh []))
     = Ok {| success := false; total_products := 0; products := [];
             error := Some (lit "browser crashed") |}.
Proof.
  destruct (@search_endpoint_errors scripted) as (Hbad & Hfail & _).
  split.
  - apply (Hbad scraper (lit "Samsung") (lit "Informatique") (lit "Phones")
             None None 5000 1000 3 (fresh [])).
    lia.
  - rewrite (Hfail (failing_scraper (ValueError (lit "browser crashed")))
               (lit "Samsung") (lit "Informatique") (lit "Phones")
               None None (Some 1000) (Some 5000) 3 (fresh [])
               (ValueError (lit "browser crashed")) (fresh [])
               eq_refl eq_refl eq_refl).
    reflexivity.
Defined.

(* ===================================================================== *)
(** ** The examples of the specification, run on the code *)
(* ===================================================================== *)

(** A numeric [value] gives the price with its unit, and a composite text
    gives the location and the date. *)
Example listing_price_from_value :
  card_fields (priced_card (lit "150") (lit "150 DT") (lit "Tunis, 2 days ago"))
  = Ok (Some {| title := lit "Samsung S20"; price := Some (lit "150 DT");
                location := Some (lit "Tunis");
                date_posted := Some (lit "2 days ago");
                image_url := Some (lit "https://cdn.tayara.tn/1.jpg");
                product_url := lit "https://www.tayara.tn/item/1";
                description := None; seller_name := None;
                seller_contact := None;
                is_delivery_available := Some false |}).
Proof. vm_compute. reflexivity. Qed.

(** Without the attribute the price is the visible text, trimmed, and a
    text without a comma is the location alone. *)
Example listing_price_from_text :
  card_fields (priced_card [] (lit "  150 dinars ") (lit "Tunis"))
  = Ok (Some {| title := lit "Samsung S20"; price := Some (lit "150 dinars");
                location := Some (lit "Tunis"); date_posted := None;
                image_url := Some (lit "https://cdn.tayara.tn/1.jpg");
                product_url := lit "https://www.tayara.tn/item/1";
                description := None; seller_name := None;
                seller_contact := None;
                is_delivery_available := Some false |}).
Proof. vm_compute. reflexivity. Qed.

(** The description in front of the marker, and the delivery status. *)
Example detail_of_complete_page :
  fst (get_product_page_info phone_url (fresh [PwOk complete_page]))
  = Ok {| title := lit "Samsung S20"; price := Some (lit "150 DT");
          location := Some (lit "Tunis");
          date_posted := Some (lit "2 days ago"); image_url := None;
          product_url := phone_url;
          description := Some (lit "Great phone.");
          seller_name := None;
          seller_contact := Some (lit "12 345 678");
          is_delivery_available := Some true |}.
Proof. vm_compute. reflexivity. Qed.

(** A query that has no UTF-8 encoding makes every turn of the loop fail
    in front of the browser: the search visits no page and reports an
    empty success. *)
Example search_with_lone_surrogate :
  let run :=
    scrape_products [55296%N] (lit "Informatique") (lit "Phones")
      None None None None 3 (fresh [PwOk (full_page (lit "a") 30)]) in
  fst run = Ok {| success := true; total_products := 0; products := [];
                  error := None |}
  /\ visited (world (snd run)) = []
  /\ List.length (log (snd run)) = 3%nat.
Proof. vm_compute. repeat split; reflexivity. Qed.

(** With no field at all the path is empty between its two slashes. *)
Example build_url_of_nothing :
  build_url [] [] None None None None None None
  = Ok (lit "https://www.tayara.tn/ads//").
Proof. vm_compute. reflexivity. Qed.

(* ===================================================================== *)
(** ** The browser session: teardown and failures *)
(* ===================================================================== *)

Section SessionProperties.

Context {rt : Runtime}.

(** Reading the fields of a detail page leaves the browser alone. *)
Lemma page_fields_world (url : str) (page : Page) (s : State) :
  world (snd (page_fields url page s)) = world s.
Proof.
  unfold page_fields, bind, lift.
  destruct (page_text page _ (lit "No title") _) as [t|e]; [|reflexivity].
  destruct (page_text page _ None _) as [sn|e]; [|reflexivity].
  destruct (page_price_description page) as [[pr d]|e]; [|reflexivity].
  destruct (page_location_date page) as [[loc dt]|e]; [|reflexivity].
  destruct (page_delivery page) as [dl|e]; [|reflexivity].
  rewrite extract_contact_eq.
  destruct (reveal_contact page) as [c|e];
    destruct (page_image_url page) as [im|e']; try reflexivity;
    destruct d as [|d]; reflexivity.
Qed.

(** The listing scrape after a launch, by what the navigation gives. *)
Lemma scrape_products_per_page_launched (url : str) (s : State) (w1 : World) :
  launch (world s) = (PwOk tt, w1) ->
  let w2 := snd (new_page_goto url 60000 w1) in
  world (snd (scrape_products_per_page url s)) = snd (close w2)
  /\ match fst (close w2) with
     | PwError m => fst (scrape_products_per_page url s)
                    = Raise (PlaywrightError m)
     | PwOk _ =>
         match fst (new_page_goto url 60000 w1) with
         | PwError m =>
             fst (scrape_products_per_page url s)
             = Raise (ValueError (lit "Scraping failed: " ++ m
                                  ++ lit " for page url " ++ url))
         | PwOk pg =>
             match page_wait_for_selector pg (lit "article") 10000 with
             | PwError m =>
                 fst (scrape_products_per_page url s)
                 = Raise (ValueError (lit "Scraping failed: " ++ m
                                      ++ lit " for page url " ++ url))
             | PwOk _ =>
                 match page_query_selector_all pg (lit "article") with
                 | PwError m =>
                     fst (scrape_products_per_page url s)
                     = Raise (ValueError (lit "Scraping failed: " ++ m
                                          ++ lit " for page url " ++ url))
                 | PwOk cards =>
                     fst (scrape_products_per_page url s)
                     = Ok (page_records cards)
                 end
             end
         end
     end.
Proof.
  intros Hl w2. subst w2.
  remember (scrape_products_per_page url s) as run eqn:Hrun.
  unfold scrape_products_per_page, bind, logger, await_browser, try_finally,
    try_except, await, raise, ret, with_log in Hrun.
  cbn [world log] in Hrun. rewrite Hl in Hrun. cbn [world log] in Hrun.
  destruct (new_page_goto url 60000 w1) as [[pg|m] w2] eqn:Hg;
    cbn [fst snd world log] in *.
  2:{ cbn [world log] in Hrun.
      destruct (close w2) as [[[]|m'] w3]; subst run; split; reflexivity. }
  destruct (page_wait_for_selector pg (lit "article") 10000) as [o|m] eqn:Hw.
  2:{ cbn [world log] in Hrun.
      destruct (close w2) as [[[]|m'] w3]; subst run; split; reflexivity. }
  destruct (page_query_selector_all pg (lit "article")) as [cards|m] eqn:Hq.
  2:{ cbn [world log] in Hrun.
      destruct (close w2) as [[[]|m'] w3]; subst run; split; reflexivity. }
  match type of Hrun with
  | context [for_product_elements cards [] ?s1] =>
      destruct (for_product_elements_records cards [] s1) as [lg Hlg];
      rewrite Hlg in Hrun
  end.
  cbn [world log] in Hrun.
  destruct (close w2) as [[[]|m'] w3]; subst run; split; reflexivity.
Qed.

(** The detail extraction after a launch, by what the navigation gives. *)
Lemma get_product_page_info_launched (url : str) (s : State) (w1 : World) :
  launch (world s) = (PwOk tt, w1) ->
  let w2 := snd (new_page_goto url 30000 w1) in
  world (snd (get_product_page_info url s)) = snd (close w2)
  /\ match fst (close w2) with
     | PwError m => fst (get_product_page_info url s)
                    = Raise (PlaywrightError m)
     | PwOk _ =>
         match fst (new_page_goto url 30000 w1) with
         | PwError m =>
             fst (get_product_page_info url s)
             = Raise (ValueError (lit "Failed to extract product info: "
                                  ++ m))
         | PwOk pg =>
             match page_wait_for_selector pg (lit "body") 10000 with
             | PwError m =>
                 fst (get_product_page_info url s)
                 = Raise (ValueError (lit "Failed to extract product info: "
                                      ++ m))
             | PwOk _ =>
                 fst (get_product_page_info url s)
                 = match fst (page_fields url pg (mkState w2 (log s))) with
                   | Ok p => Ok p
                   | Raise e =>
                       Raise (ValueError
                                (lit "Failed to extract product info: "
                                 ++ str_exn e))
                   end
             end
         end
     end.
Proof.
  intros Hl w2. subst w2.
  remember (get_product_page_info url s) as run eqn:Hrun.
  unfold get_product_page_info, bind, logger, await_browser, try_finally,
    try_except, await, raise, ret, with_log in Hrun.
  rewrite Hl in Hrun. cbn [world log] in Hrun.
  destruct (new_page_goto url 30000 w1) as [[pg|m] w2] eqn:Hg;
    cbn [fst snd world log] in *.
  2:{ cbn [world log] in Hrun.
      destruct (close w2) as [[[]|m'] w3]; subst run; split; reflexivity. }
  destruct (page_wait_for_selector pg (lit "body") 10000) as [o|m] eqn:Hwt.
  2:{ cbn [world log] in Hrun.
      destruct (close w2) as [[[]|m'] w3]; subst run; split; reflexivity. }
  pose proof (page_fields_world url pg (mkState w2 (log s))) as Hw.
  destruct (page_fields url pg (mkState w2 (log s))) as [[p|e] s1];
    cbn [fst snd world log] in *; rewrite Hw in Hrun;
    destruct (close w2) as [[[]|m'] w3]; subst run; split; reflexivity.
Qed.

End SessionProperties.

(** X1.  Once the browser is launched, both scrapers close it on every
    way out: the world they leave is the one [browser.close()] makes of
    the world after the navigation, whatever the navigation and the
    extraction did. *)
Theorem browser_is_closed_on_every_path {rt : Runtime}
    (url : str) (s : State) (w1 : World) :
  launch (world s) = (PwOk tt, w1) ->
  world (snd (scrape_products_per_page url s))
  = snd (close (snd (new_page_goto url 60000 w1)))
  /\ world (snd (get_product_page_info url s))
     = snd (close (snd (new_page_goto url 30000 w1))).
Proof.
  intros Hl. split.
  - apply (scrape_products_per_page_launched url s Hl).
  - apply (get_product_page_info_launched url s Hl).
Qed.

Lemma browser_is_closed_on_every_path_witness :
  upcoming (world (snd (scrape_products_per_page phone_url
                          (fresh [PwOk page_without_cards;
                                  PwOk complete_page]))))
  = [PwOk complete_page]
  /\ visited (world (snd (get_product_page_info phone_url
                            (fresh [PwOk page_without_comma]))))
     = [phone_url].
Proof.
  split.
  - rewrite (proj1 (@browser_is_closed_on_every_path scripted phone_url
                      (fresh [PwOk page_without_cards; PwOk complete_page])
                      _ eq_refl)).
    reflexivity.
  - rewrite (proj2 (@browser_is_closed_on_every_path scripted phone_url
                      (fresh [PwOk page_without_comma]) _ eq_refl)).
    reflexivity.
Defined.

(** X2.  What a page scrape raises.  A launch that fails is raised as it
    is, and the browser is neither sent anywhere nor closed.  After a
    launch, a failure of the navigation, of the wait for the first card
    or of the query for the cards is raised as a [ValueError] that names
    the cause and the URL; a failure of [browser.close()] is raised in
    place of any outcome, a successful one included. *)
Theorem page_scrape_failures {rt : Runtime} :
  (forall url s m w1,
      launch (world s) = (PwError m, w1) ->
      fst (scrape_products_per_page url s) = Raise (PlaywrightError m)
      /\ world (snd (scrape_products_per_page url s)) = w1)
  /\ (forall url s w1 w2 w3 m,
        launch (world s) = (PwOk tt, w1) ->
        close w2 = (PwOk tt, w3) ->
        (new_page_goto url 60000 w1 = (PwError m, w2)
         \/ exists pg,
             new_page_goto url 60000 w1 = (PwOk pg, w2)
             /\ (page_wait_for_selector pg (lit "article") 10000 = PwError m
                 \/ (reads (page_wait_for_selector pg (lit "article") 10000)
                     = true
                     /\ page_query_selector_all pg (lit "article")
                        = PwError m))) ->
        fst (scrape_products_per_page url s)
        = Raise (ValueError (lit "Scraping failed: " ++ m
                             ++ lit " for page url " ++ url)))
  /\ (forall url s w1 m w3,
        launch (world s) = (PwOk tt, w1) ->
        close (snd (new_page_goto url 60000 w1)) = (PwError m, w3) ->
        fst (scrape_products_per_page url s) = Raise (PlaywrightError m)).
Proof.
  split; [|split].
  - intros url s m w1 Hl.
    unfold scrape_products_per_page, bind, logger, await_browser, with_log.
    cbn [world log]. rewrite Hl. split; reflexivity.
  - intros url s w1 w2 w3 m Hl Hc Hfail.
    pose proof (proj2 (scrape_products_per_page_launched url s Hl)) as H.
    cbv zeta in H.
    destruct Hfail as [Hg|(pg & Hg & [Hw|[Hw Hq]])];
      rewrite Hg in H; cbn [fst snd] in H; rewrite Hc in H; cbn [fst] in H.
    + exact H.
    + rewrite Hw in H. exact H.
    + destruct (page_wait_for_selector pg (lit "article") 10000);
        [|discriminate].
      rewrite Hq in H. exact H.
  - intros url s w1 m w3 Hl Hc.
    pose proof (proj2 (scrape_products_per_page_launched url s Hl)) as H.
    cbv zeta in H. rewrite Hc in H. exact H.
Qed.

Lemma page_scrape_failures_witness :
  fst (scrape_products_per_page phone_url (no_browser [PwOk complete_page]))
  = Raise (PlaywrightError (lit "Executable doesn't exist"))
  /\ fst (scrape_products_per_page phone_url
            (fresh [PwOk page_without_cards]))
     = Raise (ValueError
                (lit "Scraping failed: Timeout 10000ms exceeded. for page url https://www.tayara.tn/item/42/phone")).
Proof.
  destruct (@page_scrape_failures scripted) as (Hlaunch & Hwrap & _).
  split.
  - apply (Hlaunch phone_url (no_browser [PwOk complete_page])
             (lit "Executable doesn't exist")
             (world (no_browser [PwOk complete_page]))).
    reflexivity.
  - rewrite (Hwrap phone_url (fresh [PwOk page_without_cards])
               (world (fresh [PwOk page_without_cards]))
               (mkScript (PwOk tt) (PwOk tt) [] [phone_url])
               (mkScript (PwOk tt) (PwOk tt) [] [phone_url])
               (lit "Timeout 10000ms exceeded.")).
    + vm_compute. reflexivity.
    + reflexivity.
    + reflexivity.
    + right. exists page_without_cards. split; [reflexivity|].
      left. reflexivity.
Defined.

(** X3.  A results page on which no card appears does not end a search:
    the wait for the first card fails, the page counts as failed, and the
    loop goes on with the next page and the aggregate as it was. *)
Theorem page_without_cards_is_skipped {rt : Runtime}
    (query category subcategory : str) (city condition : option str)
    (min_price max_price : option Z) (max_pages current_page : Z)
    (all_products : list Product) (s : State)
    (url : str) (w1 : World) (pg : Page) (w2 : World) (m : str) :
  current_page <= max_pages ->
  build_url query category (Some subcategory) city condition
    min_price max_price (Some current_page) = Ok url ->
  launch (world s) = (PwOk tt, w1) ->
  new_page_goto url 60000 w1 = (PwOk pg, w2) ->
  page_wait_for_selector pg (lit "article") 10000 = PwError m ->
  exists s',
    while_pages query category subcategory city condition min_price
      max_price max_pages current_page all_products s
    = while_pages query category subcategory city condition min_price
        max_price max_pages (current_page + 1) all_products s'
    /\ world s' = snd (close w2).
Proof.
  intros Hle Hu Hl Hg Hw.
  set (s1 := with_log INFO (lit "Scraping page " ++ str_of_int current_page
                            ++ lit ": " ++ url) s).
  assert (Hl1 : launch (world s1) = (PwOk tt, w1)) by exact Hl.
  destruct (scrape_products_per_page_launched url s1 Hl1) as [Hworld Hres].
  cbv zeta in Hworld, Hres. rewrite Hg in Hworld, Hres.
  cbn [fst snd] in Hworld, Hres. rewrite Hw in Hres.
  assert (Hraise : exists e, fst (scrape_products_per_page url s1) = Raise e).
  { destruct (fst (close w2)); eauto. }
  destruct Hraise as [e He].
  destruct (@while_pages_skips_failed_page rt query category subcategory city
              condition min_price max_price max_pages current_page
              all_products s e (snd (scrape_products_per_page url s1)) Hle)
    as (s' & Hloop & Hws).
  - unfold page_outcome. rewrite Hu. fold s1.
    destruct (scrape_products_per_page url s1) as [r s2].
    cbn [fst snd] in *. now rewrite He.
  - exists s'. split; [exact Hloop|]. now rewrite Hws.
Qed.

Lemma page_without_cards_is_skipped_witness :
  exists s',
    while_pages (lit "Samsung") (lit "Informatique") (lit "Phones")
      None None None None 2 1 []
      (fresh [PwOk page_without_cards; PwOk (full_page (lit "b") 3)])
    = while_pages (lit "Samsung") (lit "Informatique") (lit "Phones")
        None None None None 2 (1 + 1) [] s'
    /\ world s'
       = snd (close (mkScript (PwOk tt) (PwOk tt)
                       [PwOk (full_page (lit "b") 3)] [phones_url "1"])).
Proof.
  apply (@page_without_cards_is_skipped scripted
           (lit "Samsung") (lit "Informatique") (lit "Phones")
           None None None None 2 1 []
           (fresh [PwOk page_without_cards; PwOk (full_page (lit "b") 3)])
           (phones_url "1")
           (world (fresh [PwOk page_without_cards;
                          PwOk (full_page (lit "b") 3)]))
           page_without_cards
           (mkScript (PwOk tt) (PwOk tt) [PwOk (full_page (lit "b") 3)]
              [phones_url "1"])
           (lit "Timeout 10000ms exceeded."));
    [lia | reflexivity | reflexivity | reflexivity | reflexivity].
Defined.

(** X4.  What the detail extraction raises and returns.  A launch that
    fails is raised as it is.  After a launch and with a browser that
    closes, a failure of the navigation or of the wait for the body is
    raised as a [ValueError] that carries the cause; on a loaded page the
    product of the fields is returned, and an exception among the fields
    is raised as a [ValueError] that carries its text. *)
Theorem detail_extraction_outcomes {rt : Runtime} :
  (forall url s m w1,
      launch (world s) = (PwError m, w1) ->
      fst (get_product_page_info url s) = Raise (PlaywrightError m)
      /\ world (snd (get_product_page_info url s)) = w1)
  /\ (forall url s w1 w2 w3 m,
        launch (world s) = (PwOk tt, w1) ->
        close w2 = (PwOk tt, w3) ->
        (new_page_goto url 30000 w1 = (PwError m, w2)
         \/ exists pg,
             new_page_goto url 30000 w1 = (PwOk pg, w2)
             /\ page_wait_for_selector pg (lit "body") 10000 = PwError m) ->
        fst (get_product_page_info url s)
        = Raise (ValueError (lit "Failed to extract product info: " ++ m)))
  /\ (forall url s w1 pg w2 w3,
        launch (world s) = (PwOk tt, w1) ->
        new_page_goto url 30000 w1 = (PwOk pg, w2) ->
        reads (page_wait_for_selector pg (lit "body") 10000) = true ->
        close w2 = (PwOk tt, w3) ->
        fst (get_product_page_info url s)
        = match fst (page_fields url pg (mkState w2 (log s))) with
          | Ok p => Ok p
          | Raise e =>
              Raise (ValueError (lit "Failed to extract product info: "
                                 ++ str_exn e))
          end).
Proof.
  split; [|split].
  - intros url s m w1 Hl.
    unfold get_product_page_info, bind, await_browser.
    rewrite Hl. split; reflexivity.
  - intros url s w1 w2 w3 m Hl Hc Hfail.
    pose proof (proj2 (get_product_page_info_launched url s Hl)) as H.
    cbv zeta in H.
    destruct Hfail as [Hg|(pg & Hg & Hw)];
      rewrite Hg in H; cbn [fst snd] in H; rewrite Hc in H; cbn [fst] in H.
    + exact H.
    + rewrite Hw in H. exact H.
  - intros url s w1 pg w2 w3 Hl Hg Hw Hc.
    pose proof (proj2 (get_product_page_info_launched url s Hl)) as H.
    cbv zeta in H. rewrite Hg in H. cbn [fst snd] in H.
    rewrite Hc in H. cbn [fst] in H.
    destruct (page_wait_for_selector pg (lit "body") 10000);
      [exact H | discriminate].
Qed.

Lemma detail_extraction_outcomes_witness :
  fst (get_product_page_info phone_url (no_browser [PwOk complete_page]))
  = Raise (PlaywrightError (lit "Executable doesn't exist"))
  /\ fst (get_product_page_info phone_url (fresh []))
     = Raise (ValueError
                (lit "Failed to extract product info: net::ERR_CONNECTION_REFUSED")).
Proof.
  destruct (@detail_extraction_outcomes scripted) as (Hlaunch & Hwrap & _).
  split.
  - apply (Hlaunch phone_url (no_browser [PwOk complete_page])
             (lit "Executable doesn't exist")
             (world (no_browser [PwOk complete_page]))).
    reflexivity.
  - rewrite (Hwrap phone_url (fresh []) (world (fresh []))
               (mkScript (PwOk tt) (PwOk tt) [] [phone_url])
               (mkScript (PwOk tt) (PwOk tt) [] [phone_url])
               (lit "net::ERR_CONNECTION_REFUSED")).
    + vm_compute. reflexivity.
    + reflexivity.
    + reflexivity.
    + left. reflexivity.
Defined.

(* ===================================================================== *)
(** ** More on the URL builder and the pagination *)
(* ===================================================================== *)

Lemma quote_cases (s : str) :
  quote s = if encodable s then Ok (percent_encode s)
            else Raise (Builtin (UnicodeEncodeError s)).
Proof.
  unfold quote, encodable, percent_encode.
  destruct s as [|c s']; [reflexivity|].
  destruct (utf8_encode (c :: s')); reflexivity.
Qed.

Lemma append_segment_cases (prefix : str) (v : option str)
    (segs : list str) :
  append_segment prefix v segs
  = if encodable_opt v then Ok (segs ++ segment_of prefix v)
    else Raise (Builtin (UnicodeEncodeError
                           (match v with Some s => s | None => [] end))).
Proof.
  destruct (encodable_opt v) eqn:He.
  - now apply append_segment_spec.
  - unfold append_segment. destruct v as [[|c s']|]; try discriminate.
    cbn [truthy_opt truthy encodable_opt] in *.
    rewrite quote_cases, He. reflexivity.
Qed.

(** When [build_url] returns and what it raises. *)
Lemma build_url_cases
    (query category : str) (subcategory city condition : option str)
    (min_price max_price page : option Z) :
  match build_url query category subcategory city condition
          min_price max_price page with
  | Ok _ => all_encodable query category subcategory city condition = true
  | Raise e =>
      all_encodable query category subcategory city condition = false
      /\ exists s, e = Builtin (UnicodeEncodeError s) /\ encodable s = false
  end.
Proof.
  unfold build_url, all_encodable.
  rewrite (append_segment_cases (lit "c/") (Some category)).
  cbn [encodable_opt].
  destruct (encodable category) eqn:Hc; cbn [rbind andb];
    [|split; [reflexivity | eauto]].
  rewrite append_segment_cases.
  destruct (encodable_opt subcategory) eqn:Hs; cbn [rbind andb].
  2:{ split; [reflexivity|]. destruct subcategory; [eauto | discriminate]. }
  rewrite append_segment_cases.
  destruct (encodable_opt city) eqn:Hci; cbn [rbind andb].
  2:{ split; [reflexivity|]. destruct city; [eauto | discriminate]. }
  rewrite append_segment_cases.
  destruct (encodable_opt condition) eqn:Hco; cbn [rbind andb].
  2:{ split; [reflexivity|]. destruct condition; [eauto | discriminate]. }
  rewrite (append_segment_cases (lit "k/") (Some query)).
  cbn [encodable_opt].
  destruct (encodable query) eqn:Hq; cbn [rbind andb];
    [reflexivity | split; [reflexivity | eauto]].
Qed.


Section MorePagination.

Context {rt : Runtime}.

Variables (query category subcategory : str).
Variables (city condition : option str).
Variables (min_price max_price : option Z).

Abbreviation loop' :=
  (while_pages query category subcategory city condition min_price max_price).
Abbreviation outcome' :=
  (page_outcome query category subcategory city condition min_price max_price).

(** When every page fails in worlds that satisfy [I], and leaves [I]
    standing, the loop runs to its end with the aggregate as it was. *)
Lemma while_pages_all_fail (I : World -> Prop) :
  (forall current_page s,
      I (world s) ->
      exists e s2, outcome' current_page s = (Raise e, s2) /\ I (world s2)) ->
  forall (n : nat) (max_pages current_page : Z)
         (all_products : list Product) (s : State),
    Z.to_nat (max_pages + 1 - current_page) = n ->
    I (world s) ->
    exists s',
      loop' max_pages current_page all_products s = (Ok all_products, s')
      /\ I (world s').
Proof.
  intros Hfail. induction n as [|n IH];
    intros max_pages current_page all_products s Hn HI;
    rewrite while_pages_turn.
  - assert (H : (current_page <=? max_pages) = false) by (apply Z.leb_gt; lia).
    rewrite H. eauto.
  - assert (H : (current_page <=? max_pages) = true) by (apply Z.leb_le; lia).
    rewrite H.
    pose proof (scrape_turn_cases query category subcategory city condition
                  min_price max_price current_page all_products s) as Ht.
    destruct (Hfail current_page s HI) as (e & s2 & Hout & HI2).
    rewrite Hout in Ht. destruct Ht as (s' & -> & Hw).
    apply IH; [lia | now rewrite Hw].
Qed.

End MorePagination.

(** X6.  A search with a text field that has no UTF-8 encoding fails in
    front of the browser at every page: it returns an empty success and
    leaves the browser as it was. *)
Theorem search_with_unencodable_field {rt : Runtime}
    (query category subcategory : str) (city condition : option str)
    (min_price max_price : option Z) (max_pages : Z) (s : State) :
  all_encodable query category (Some subcategory) city condition = false ->
  fst (scrape_products query category subcategory city condition
         min_price max_price max_pages s)
  = Ok {| success := true; total_products := 0; products := [];
          error := None |}
  /\ world (snd (scrape_products query category subcategory city condition
                   min_price max_price max_pages s))
     = world s.
Proof.
  intros Henc. rewrite scrape_products_eq.
  destruct (@while_pages_all_fail rt query category subcategory city
              condition min_price max_price (fun w => w = world s))
    with (n := Z.to_nat (max_pages + 1 - 1)) (max_pages := max_pages)
         (current_page := 1) (all_products := @nil Product) (s := s)
    as (s' & -> & Hw); try reflexivity.
  - intros current_page s0 H0. unfold page_outcome.
    pose proof (build_url_cases query category
                  (Some subcategory) city condition min_price max_price
                  (Some current_page)) as Hb.
    destruct (build_url query category (Some subcategory) city condition
                min_price max_price (Some current_page)) as [url|e].
    + congruence.
    + eauto.
  - split; [reflexivity | exact Hw].
Qed.

Lemma search_with_unencodable_field_witness :
  fst (scrape_products [55296%N] (lit "Informatique") (lit "Phones")
         None None None None 3 (fresh [PwOk (full_page (lit "a") 30)]))
  = Ok {| success := true; total_products := 0; products := [];
          error := None |}
  /\ upcoming (world (snd (scrape_products [55296%N] (lit "Informatique")
                             (lit "Phones") None None None None 3
                             (fresh [PwOk (full_page (lit "a") 30)]))))
     = [PwOk (full_page (lit "a") 30)].
Proof.
  destruct (@search_with_unencodable_field scripted [55296%N]
              (lit "Informatique") (lit "Phones") None None None None 3
              (fresh [PwOk (full_page (lit "a") 30)]) eq_refl) as [Hr Hw].
  split; [exact Hr|]. rewrite Hw. reflexivity.
Defined.

(** X7.  The failures of the pages are swallowed.  Against a browser
    that never launches, a search still returns, flagged as a success,
    with no product. *)
Theorem search_without_browser {rt : Runtime}
    (query category subcategory : str) (city condition : option str)
    (min_price max_price : option Z) (max_pages : Z) (s : State) :
  (forall w, exists m w', launch w = (PwError m, w')) ->
  fst (scrape_products query category subcategory city condition
         min_price max_price max_pages s)
  = Ok {| success := true; total_products := 0; products := [];
          error := None |}.
Proof.
  intros Hno. rewrite scrape_products_eq.
  destruct (@while_pages_all_fail rt query category subcategory city
              condition min_price max_price (fun _ => True))
    with (n := Z.to_nat (max_pages + 1 - 1)) (max_pages := max_pages)
         (current_page := 1) (all_products := @nil Product) (s := s)
    as (s' & -> & _); auto.
  intros current_page s0 _. unfold page_outcome.
  destruct (build_url query category (Some subcategory) city condition
              min_price max_price (Some current_page)) as [url|e];
    [|eauto].
  unfold scrape_products_per_page, bind, logger, await_browser, with_log.
  cbn [world log].
  destruct (Hno (world s0)) as (m & w' & ->). eauto.
Qed.

Lemma search_without_browser_witness :
  fst (@scrape_products browserless (lit "Samsung") (lit "Informatique")
         (lit "Phones") None None None None 3 (@mkState browserless tt []))
  = Ok {| success := true; total_products := 0; products := [];
          error := None |}.
Proof.
  apply (@search_without_browser browserless).
  intros w. exists (lit "Executable doesn't exist"). exists w. reflexivity.
Defined.

(** On the scripted browser a page scrape after a launch adds its URL,
    and nothing else, to the URLs visited. *)
Lemma scripted_page_visit (url : str) (s : @State scripted) :
  launch_outcome (world s) = PwOk tt ->
  launch_outcome (world (snd (scrape_products_per_page url s))) = PwOk tt
  /\ visited (world (snd (scrape_products_per_page url s)))
     = visited (world s) ++ [url].
Proof.
  intros Hl.
  assert (Hl' : launch (Runtime := scripted) (world s) = (PwOk tt, world s)).
  { cbn. now rewrite Hl. }
  rewrite (proj1 (scrape_products_per_page_launched url s Hl')).
  cbn. destruct (upcoming (world s)); cbn; auto.
Qed.

Lemma page_urls_S (query category subcategory : str)
    (city condition : option str) (min_price max_price : option Z)
    (first : Z) (k : nat) :
  page_urls query category subcategory city condition min_price max_price
    first (S k)
  = page_urls query category subcategory city condition min_price max_price
      first 1
    ++ page_urls query category subcategory city condition min_price
         max_price (first + 1) k.
Proof.
  unfold page_urls. cbn [seq flat_map]. rewrite app_nil_r. f_equal.
  rewrite <- seq_shift, flat_map_concat_map, map_map,
    <- flat_map_concat_map.
  apply flat_map_ext. intros i.
  replace (first + Z.of_nat (S i)) with (first + 1 + Z.of_nat i) by lia.
  reflexivity.
Qed.

(** The pages a loop visits on the scripted browser. *)
Lemma while_pages_visits (query category subcategory : str)
    (city condition : option str) (min_price max_price : option Z) :
  forall (n : nat) (max_pages current_page : Z)
         (all_products : list Product) (s : @State scripted),
    Z.to_nat (max_pages + 1 - current_page) = n ->
    launch_outcome (world s) = PwOk tt ->
    exists k,
      (k <= n)%nat
      /\ visited (world (snd (while_pages query category subcategory city
                                condition min_price max_price max_pages
                                current_page all_products s)))
         = visited (world s)
           ++ page_urls query category subcategory city condition
                min_price max_price current_page k.
Proof.
  induction n as [|n IH];
    intros max_pages current_page all_products s Hn Hl;
    rewrite while_pages_turn.
  - assert (H : (current_page <=? max_pages) = false) by (apply Z.leb_gt; lia).
    rewrite H. exists 0%nat. split; [lia|]. cbn. now rewrite app_nil_r.
  - assert (H : (current_page <=? max_pages) = true) by (apply Z.leb_le; lia).
    rewrite H.
    pose proof (scrape_turn_cases query category subcategory city condition
                  min_price max_price current_page all_products s) as Ht.
    assert (Hout :
              launch_outcome
                (world (snd (page_outcome query category subcategory city
                               condition min_price max_price current_page s)))
              = PwOk tt
              /\ visited
                   (world (snd (page_outcome query category subcategory city
                                  condition min_price max_price
                                  current_page s)))
                 = visited (world s)
                   ++ page_urls query category subcategory city condition
                        min_price max_price current_page 1).
    { unfold page_outcome, page_urls. cbn [seq flat_map].
      replace (current_page + Z.of_nat 0) with current_page by lia.
      destruct (build_url query category (Some subcategory) city condition
                  min_price max_price (Some current_page)) as [url|e].
      - rewrite app_nil_r.
        match goal with
        | |- context [scrape_products_per_page url ?s1] =>
            exact (scripted_page_visit url s1 Hl)
        end.
      - cbn. now rewrite app_nil_r. }
    destruct Hout as [Hl2 Hv2].
    destruct (page_outcome query category subcategory city condition
                min_price max_price current_page s) as [[ps|e] s2];
      cbn [snd] in Hl2, Hv2; destruct Ht as (s' & -> & Hw).
    + assert (Hstop :
                exists k,
                  (k <= S n)%nat
                  /\ visited (world s')
                     = visited (world s)
                       ++ page_urls query category subcategory city
                            condition min_price max_price current_page k).
      { exists 1%nat. split; [lia|]. now rewrite Hw. }
      destruct ps as [|p ps]; [exact Hstop|].
      destruct (Z.of_nat (List.length (p :: ps)) <? 30); [exact Hstop|].
      destruct (IH max_pages (current_page + 1) (all_products ++ p :: ps) s')
        as (k & Hk & Hv); [lia | now rewrite Hw |].
      exists (S k). split; [lia|].
      rewrite Hv, Hw, Hv2, <- app_assoc.
      now rewrite (page_urls_S query category subcategory city condition
                     min_price max_price current_page k).
    + destruct (IH max_pages (current_page + 1) all_products s')
        as (k & Hk & Hv); [lia | now rewrite Hw |].
      exists (S k). split; [lia|].
      rewrite Hv, Hw, Hv2, <- app_assoc.
      now rewrite (page_urls_S query category subcategory city condition
                     min_price max_price current_page k).
Qed.

(** X8.  A search visits the pages one after the other from page 1 and
    never goes past the maximum: on the scripted browser, the URLs it
    adds to the URLs visited are those of pages 1 to [k], in this order,
    for some [k] that is at most [max_pages]. *)
Theorem pages_are_visited_in_order
    (query category subcategory : str) (city condition : option str)
    (min_price max_price : option Z) (max_pages : Z)
    (s : @State scripted) :
  launch_outcome (world s) = PwOk tt ->
  exists k,
    Z.of_nat k <= Z.max 0 max_pages
    /\ visited (world (snd (scrape_products query category subcategory
                              city condition min_price max_price
                              max_pages s)))
       = visited (world s)
         ++ page_urls query category subcategory city condition
              min_price max_price 1 k.
Proof.
  intros Hl. rewrite scrape_products_eq.
  destruct (@while_pages_visits query category subcategory city condition
              min_price max_price (Z.to_nat (max_pages + 1 - 1))
              max_pages 1 [] s eq_refl Hl) as (k & Hk & Hv).
  exists k. split; [lia|].
  destruct (while_pages query category subcategory city condition
              min_price max_price max_pages 1 [] s) as [[a|e] s'];
    exact Hv.
Qed.

Lemma pages_are_visited_in_order_witness :
  exists k,
    Z.of_nat k <= Z.max 0 2
    /\ visited (world (snd (scrape_products (lit "Samsung")
                              (lit "Informatique") (lit "Phones")
                              None None None None 2
                              (fresh [PwOk (full_page (lit "a") 30);
                                      PwOk (full_page (lit "b") 30);
                                      PwOk (full_page (lit "c") 30)]))))
       = visited (world (fresh [PwOk (full_page (lit "a") 30);
                                PwOk (full_page (lit "b") 30);
                                PwOk (full_page (lit "c") 30)]))
         ++ page_urls (lit "Samsung") (lit "Informatique") (lit "Phones")
              None None None None 1 k.
Proof.
  apply (pages_are_visited_in_order (lit "Samsung") (lit "Informatique")
           (lit "Phones") None None None None 2
           (fresh [PwOk (full_page (lit "a") 30);
                   PwOk (full_page (lit "b") 30);
                   PwOk (full_page (lit "c") 30)])).
  reflexivity.
Defined.

(* ===================================================================== *)
(** ** More on the fields of a record *)
(* ===================================================================== *)

(** The link of an emitted record is the one the link block computed. *)
Lemma card_fields_product_url (element : ElementHandle) (p : Product) :
  card_fields element = Ok (Some p) ->
  card_product_url element = Ok (Some (product_url p)).
Proof.
  unfold card_fields.
  destruct (card_title element) as [t|e]; cbn [rbind]; [|discriminate].
  destruct (card_price element) as [pr|e]; cbn [rbind]; [|discriminate].
  destruct (card_location_date element) as [[loc dt]|e]; cbn [rbind];
    [|discriminate].
  destruct (card_image_url element) as [im|e]; cbn [rbind]; [|discriminate].
  destruct (card_product_url element) as [[u|]|e]; cbn [rbind];
    try discriminate;
    destruct (truthy t && truthy (strip t)); cbn [rbind new_Product];
    try discriminate.
  intros H. injection H as <-. reflexivity.
Qed.

(** X9.  The link of a listing record is empty or absolute: the empty
    string when the card has no link element (or an empty [href]), the
    [href] as it is when it starts with [http], and the [href] behind the
    site's origin otherwise. *)
Theorem listing_product_url_form (element : ElementHandle) (p : Product) :
  card_fields element = Ok (Some p) ->
  (product_url p = [] \/ startswith (lit "http") (product_url p) = true)
  /\ (query_selector element (lit "a") = PwOk None -> product_url p = [])
  /\ (forall link_elem href,
         query_selector element (lit "a") = PwOk (Some link_elem) ->
         get_attribute link_elem (lit "href") = PwOk (Some href) ->
         product_url p
         = if truthy href && negb (startswith (lit "http") href)
           then lit "https://www.tayara.tn" ++ href
           else href).
Proof.
  intros H. apply card_fields_product_url in H.
  unfold card_product_url, awaited, rbind in H.
  destruct (query_selector element (lit "a")) as [[le|]|m];
    [| | discriminate].
  - destruct (get_attribute le (lit "href")) as [[[|c r]|]|m] eqn:Hg;
      try discriminate.
    + injection H as H. repeat split; auto; try discriminate.
      intros l h Hl Hh. injection Hl as <-. rewrite Hg in Hh.
      injection Hh as <-. now rewrite <- H.
    + destruct (startswith (lit "http") (c :: r)) eqn:Hs; cbn [negb] in H;
        injection H as H; rewrite <- H; repeat split; auto;
        try discriminate;
        intros l h Hl Hh; injection Hl as <-; rewrite Hg in Hh;
        injection Hh as <-; cbn [truthy andb]; rewrite Hs; reflexivity.
  - injection H as H. rewrite <- H. repeat split; auto. discriminate.
Qed.

Lemma listing_product_url_form_witness :
  product_url (record_of (lit "a")) = lit "https://www.tayara.tn/item/a".
Proof.
  destruct (listing_product_url_form
              (card (lit "a") (lit "/item/a")) (p := record_of (lit "a")))
    as (_ & _ & H); [vm_compute; reflexivity|].
  rewrite (H (element [] [(lit "href", lit "/item/a")] []) (lit "/item/a")
             eq_refl eq_refl).
  reflexivity.
Defined.

Lemma split_without_comma (s : str) :
  has_comma s = false -> split comma s = [s].
Proof.
  induction s as [|c s IH]; [reflexivity|].
  cbn [has_comma existsb split]. intros H.
  apply orb_false_elim in H as [Hc Hs]. rewrite Hc.
  unfold has_comma in IH. now rewrite (IH Hs).
Qed.

Lemma split_at_comma (a t : str) :
  has_comma a = false -> split comma (a ++ comma :: t) = a :: split comma t.
Proof.
  induction a as [|c a IH]; intros H.
  - cbn. reflexivity.
  - cbn [has_comma existsb] in H. apply orb_false_elim in H as [Hc Ha].
    cbn [app split]. rewrite Hc. unfold has_comma in IH. now rewrite (IH Ha).
Qed.

Lemma split_with_comma (s : str) :
  has_comma s = true -> exists p0 p1 ps, split comma s = p0 :: p1 :: ps.
Proof.
  induction s as [|c s IH]; [discriminate|].
  cbn [has_comma existsb split]. intros H.
  destruct (char_eqb c comma) eqn:Hc.
  - pose proof (split_nonempty comma s) as Hn.
    destruct (split comma s) as [|q qs]; [contradiction|]. eauto.
  - cbn [orb] in H. destruct (IH H) as (p0 & p1 & ps & ->). eauto.
Qed.

(** X10.  The split of the listing extractor.  The location is the text
    in front of the first comma and the date the text between the first
    and the second one, both trimmed: what follows a second comma is
    dropped.  A text without a comma is the location, and the date is
    absent. *)
Theorem location_date_split (a b rest : str) :
  has_comma a = false ->
  has_comma b = false ->
  split_location_date (Some (a ++ comma :: b))
  = Ok (Some (strip a), Some (strip b))
  /\ split_location_date (Some (a ++ comma :: b ++ comma :: rest))
     = Ok (Some (strip a), Some (strip b))
  /\ (truthy a = true ->
      split_location_date (Some a) = Ok (Some (strip a), None)).
Proof.
  intros Ha Hb. unfold split_location_date. repeat split.
  - pose proof (split_at_comma a b Ha) as Hs.
    rewrite (split_without_comma b Hb) in Hs.
    destruct (a ++ comma :: b) as [|c l] eqn:Hl;
      [destruct a; discriminate|].
    rewrite Hs. reflexivity.
  - pose proof (split_at_comma a (b ++ comma :: rest) Ha) as Hs.
    rewrite (split_at_comma b rest Hb) in Hs.
    destruct (a ++ comma :: b ++ comma :: rest) as [|c l] eqn:Hl;
      [destruct a; discriminate|].
    rewrite Hs. reflexivity.
  - intros Ht. destruct a as [|c l]; [discriminate|].
    rewrite (split_without_comma (c :: l) Ha). reflexivity.
Qed.

Lemma location_date_split_witness :
  split_location_date (Some (lit "Tunis, 2 days ago, Ariana"))
  = Ok (Some (lit "Tunis"), Some (lit "2 days ago")).
Proof.
  destruct (location_date_split (lit "Tunis") (lit " 2 days ago")
              (lit " Ariana") eq_refl eq_refl) as (_ & H & _).
  exact H.
Defined.

(** X11.  On a text with a comma the detail extractor splits as the
    listing extractor does. *)
Theorem detail_split_agrees_with_listing (page : Page)
    (location_elem : ElementHandle) (text : str) :
  page_query_selector page (lit "div.flex.items-center.space-x-2.mb-1 span")
  = PwOk (Some location_elem) ->
  text_content location_elem = PwOk (Some text) ->
  has_comma text = true ->
  page_location_date page = split_location_date (Some text).
Proof.
  intros Hq Ht Hc. unfold page_location_date, split_location_date.
  rewrite Hq. cbn [awaited rbind]. rewrite Ht. cbn [awaited rbind].
  destruct text as [|c l]; [discriminate|].
  destruct (split_with_comma (c :: l) Hc) as (p0 & p1 & ps & ->).
  reflexivity.
Qed.

Lemma detail_split_agrees_with_listing_witness :
  page_location_date complete_page
  = Ok (Some (lit "Tunis"), Some (lit "2 days ago")).
Proof.
  rewrite (@detail_split_agrees_with_listing complete_page
             (element (lit "Tunis, 2 days ago") [] [])
             (lit "Tunis, 2 days ago") eq_refl eq_refl eq_refl).
  reflexivity.
Defined.

Lemma page_text_cases {A} (page : Page) (selector : str) (default : A)
    (keep : str -> A) (v : A) :
  page_text page selector default keep = Ok v ->
  v = default \/ exists t, blank t = false /\ v = keep (strip t).
Proof.
  unfold page_text, awaited, rbind.
  destruct (page_query_selector page selector) as [[el|]|m];
    [|intros H; injection H as <-; auto | discriminate].
  destruct (inner_text el) as [t|m]; [|discriminate].
  rewrite title_test. destruct (blank t) eqn:Hb; cbn [negb];
    intros H; injection H as <-; eauto.
Qed.

(** What the fields of a detail page give when they give a product. *)
Lemma page_fields_product (url : str) (page : Page) {rt : Runtime}
    (s : State) (p : Product) :
  fst (page_fields url page s) = Ok p ->
  product_url p = url
  /\ blank (title p) = false
  /\ (forall n, seller_name p = Some n -> blank n = false)
  /\ (exists d, description p = Some d)
  /\ (exists b, is_delivery_available p = Some b)
  /\ (exists price_elem,
         page_query_selector page (lit "data") = PwOk (Some price_elem)).
Proof.
  unfold page_fields, bind, lift.
  destruct (page_text page _ (lit "No title") _) as [t|e] eqn:Ht;
    [|discriminate].
  destruct (page_text page _ None _) as [sn|e] eqn:Hs; [|discriminate].
  destruct (page_price_description page) as [[pr d]|e] eqn:Hp;
    [|discriminate].
  destruct (page_location_date page) as [[loc dt]|e]; [|discriminate].
  destruct (page_delivery page) as [dl|e]; [|discriminate].
  rewrite extract_contact_eq.
  assert (Hprice : d <> Unbound ->
                   exists price_elem,
                     page_query_selector page (lit "data")
                     = PwOk (Some price_elem)).
  { intros Hd. unfold page_price_description, awaited, rbind in Hp.
    destruct (page_query_selector page (lit "data")) as [[pe|]|m];
      [eauto | | discriminate].
    injection Hp as _ <-. contradiction. }
  destruct (reveal_contact page) as [c|e];
    destruct (page_image_url page) as [im|e']; try discriminate;
    destruct d as [|d]; try discriminate;
    cbn; intros H; injection H as <-; cbn;
    (split; [reflexivity|]);
    (split; [destruct (page_text_cases _ _ _ _ Ht) as [->|(x & Hx & ->)];
             [vm_compute; reflexivity | now rewrite blank_strip]|]);
    (split; [intros n Hn;
             destruct (page_text_cases _ _ _ _ Hs) as [->|(x & Hx & ->)];
             [discriminate | injection Hn as <-; now rewrite blank_strip]|]);
    (split; [eauto|]); (split; [eauto|]); apply Hprice; discriminate.
Qed.

(** A product of the detail extraction is a product of the fields of some
    page. *)
Lemma get_product_page_info_product {rt : Runtime} (url : str) (s : State)
    (p : Product) :
  fst (get_product_page_info url s) = Ok p ->
  exists page s1, fst (page_fields url page s1) = Ok p.
Proof.
  intros H.
  destruct (launch (world s)) as [[[]|m] w1] eqn:Hl.
  2:{ unfold get_product_page_info, bind, await_browser in H.
      rewrite Hl in H. discriminate. }
  pose proof (proj2 (get_product_page_info_launched url s Hl)) as Hc.
  cbv zeta in Hc.
  destruct (new_page_goto url 30000 w1) as [[pg|m] w2]; cbn [fst snd] in Hc;
    destruct (fst (close w2)); try congruence.
  destruct (page_wait_for_selector pg (lit "body") 10000); try congruence.
  exists pg. exists (mkState w2 (log s)).
  destruct (fst (page_fields url pg (mkState w2 (log s)))); congruence.
Qed.

(** X12.  A product of the detail extraction carries the URL it was
    asked for, a title that is not blank, a description and a delivery
    flag; its seller name, when there is one, is not blank; and the page
    it comes from had a price element. *)
Theorem detail_product_invariants {rt : Runtime} (url : str) (s : State)
    (p : Product) :
  fst (get_product_page_info url s) = Ok p ->
  product_url p = url
  /\ blank (title p) = false
  /\ (forall n, seller_name p = Some n -> blank n = false)
  /\ (exists d, description p = Some d)
  /\ (exists b, is_delivery_available p = Some b).
Proof.
  intros H. destruct (get_product_page_info_product url s H) as (pg & s1 & Hf).
  destruct (page_fields_product url pg s1 Hf) as (H1 & H2 & H3 & H4 & H5 & _).
  auto.
Qed.

Lemma detail_product_invariants_witness :
  exists p,
    fst (get_product_page_info phone_url (fresh [PwOk complete_page])) = Ok p
    /\ product_url p = phone_url
    /\ blank (title p) = false.
Proof.
  destruct (fst (get_product_page_info phone_url (fresh [PwOk complete_page])))
    as [p|e] eqn:Hrun.
  - exists p. split; [reflexivity|].
    destruct (@detail_product_invariants scripted phone_url
                (fresh [PwOk complete_page]) p Hrun) as (H1 & H2 & _).
    split; assumption.
  - vm_compute in Hrun. discriminate.
Defined.

(** X15.  The two extractors price alike.  For a price element that the
    listing rule prices, the price is the [value] attribute followed by
    [" DT"] when the attribute is there and not empty, otherwise the
    visible text trimmed when it is not empty, otherwise nothing; and the
    detail block gives this very price for the element, failing only
    where its description part fails.  Without a price element both give
    no price. *)
Theorem price_rules_agree :
  (forall (element : ElementHandle) (page : Page)
          (price_elem : ElementHandle) (listed : option str),
      query_selector element (lit "data") = PwOk (Some price_elem) ->
      page_query_selector page (lit "data") = PwOk (Some price_elem) ->
      card_price element = Ok listed ->
      listed
      = match get_attribute price_elem (lit "value") with
        | PwOk (Some ((_ :: _) as price_value)) =>
            Some (price_value ++ lit " DT")
        | _ =>
            match inner_text price_elem with
            | PwOk ((_ :: _) as price_text) => Some (strip price_text)
            | _ => None
            end
        end
      /\ page_price_description page
         = match page_query_selector page
                   (lit "p.text-sm.text-start.text-gray-700") with
           | PwOk (Some description_elem) =>
               match text_content description_elem with
               | PwOk full_text =>
                   match describe full_text with
                   | Ok description => Ok (listed, Bound description)
                   | Raise e => Raise e
                   end
               | PwError msg => Raise (PlaywrightError msg)
               end
           | PwOk None => Ok (listed, Unbound)
           | PwError msg => Raise (PlaywrightError msg)
           end)
  /\ (forall (element : ElementHandle) (page : Page),
         query_selector element (lit "data") = PwOk None ->
         page_query_selector page (lit "data") = PwOk None ->
         card_price element = Ok None
         /\ page_price_description page = Ok (None, Unbound)).
Proof.
  split.
  - intros element page pe listed Hc Hp.
    unfold card_price, page_price_description, awaited, rbind.
    rewrite Hc, Hp.
    destruct (get_attribute pe (lit "value")) as [[[|c v]|]|m];
      try discriminate;
      destruct (inner_text pe) as [[|c' t]|m']; try discriminate;
      cbn [truthy]; intros H;
      first
        [ assert (E : listed = None) by congruence
        | assert (E : listed = Some (strip (c' :: t))) by congruence
        | assert (E : listed = Some ((c :: v) ++ lit " DT")) by congruence ];
      subst listed; (split; [reflexivity|]);
      destruct (page_query_selector page
                  (lit "p.text-sm.text-start.text-gray-700"))
        as [[de|]|m2]; try reflexivity;
      destruct (text_content de) as [ft|m3]; try reflexivity;
      destruct (describe ft); reflexivity.
  - intros element page Hc Hp.
    unfold card_price, page_price_description, awaited, rbind.
    rewrite Hc, Hp. split; reflexivity.
Qed.

Lemma price_rules_agree_witness :
  page_price_description complete_page
  = Ok (Some (lit "150 DT"), Bound (lit "Great phone.")).
Proof.
  destruct (proj1 price_rules_agree
              (element [] []
                 [data_valued (lit "150") (lit "150 DT")])
              complete_page
              (element (lit "150 DT") [(lit "value", lit "150")] [])
              (Some (lit "150 DT")) eq_refl eq_refl eq_refl) as [_ H].
  rewrite H. vm_compute. reflexivity.
Defined.

(* ===================================================================== *)
(** ** The characters of a URL *)
(* ===================================================================== *)

Lemma forallb_join (P : char -> bool) (sep : str) (parts : list str) :
  forallb P sep = true ->
  Forall (fun p => forallb P p = true) parts ->
  forallb P (join sep parts) = true.
Proof.
  intros Hsep Hall. induction Hall as [|p ps Hp Hps IH]; [reflexivity|].
  cbn [join]. destruct ps as [|q qs]; [exact Hp|].
  rewrite !forallb_app, Hp, Hsep. exact IH.
Qed.

Lemma quote_byte_url_chars (b : N) :
  (b < 256)%N -> forallb url_char (quote_byte b) = true.
Proof.
  intros Hb.
  assert (Hall : forallb (fun n => forallb url_char (quote_byte (N.of_nat n)))
                   (seq 0 256) = true) by (vm_compute; reflexivity).
  rewrite forallb_forall in Hall.
  specialize (Hall (N.to_nat b)). rewrite N2Nat.id in Hall.
  apply Hall. apply in_seq. lia.
Qed.

Lemma utf8_encode_char_bytes (c : char) (bs : list N) :
  utf8_encode_char c = Some bs -> Forall (fun b => (b < 256)%N) bs.
Proof.
  unfold utf8_encode_char.
  destruct (c <? 128)%N eqn:H1.
  { intros H. assert (E : bs = [c]) by congruence. subst bs.
    apply N.ltb_lt in H1. apply Forall_cons; [lia | apply Forall_nil]. }
  destruct (c <? 2048)%N eqn:H2.
  { intros H.
    assert (E : bs = [192 + c / 64; 128 + c mod 64]%N) by congruence.
    subst bs. apply N.ltb_lt in H2.
    assert (c / 64 < 32)%N by (apply N.Div0.div_lt_upper_bound; lia).
    assert (c mod 64 < 64)%N by (apply N.mod_lt; lia).
    repeat (apply Forall_cons; [lia|]). apply Forall_nil. }
  destruct (c <? 65536)%N eqn:H3.
  { destruct ((55296 <=? c) && (c <=? 57343))%N; [discriminate|].
    intros H.
    assert (E : bs = [224 + c / 4096; 128 + (c / 64) mod 64;
                      128 + c mod 64]%N) by congruence.
    subst bs. apply N.ltb_lt in H3.
    assert (c / 4096 < 16)%N by (apply N.Div0.div_lt_upper_bound; lia).
    assert ((c / 64) mod 64 < 64)%N by (apply N.mod_lt; lia).
    assert (c mod 64 < 64)%N by (apply N.mod_lt; lia).
    repeat (apply Forall_cons; [lia|]). apply Forall_nil. }
  destruct (c <? 1114112)%N eqn:H4; [|discriminate].
  intros H.
  assert (E : bs = [240 + c / 262144; 128 + (c / 4096) mod 64;
                    128 + (c / 64) mod 64; 128 + c mod 64]%N)
    by congruence.
  subst bs. apply N.ltb_lt in H4.
  assert (c / 262144 < 5)%N by (apply N.Div0.div_lt_upper_bound; lia).
  assert ((c / 4096) mod 64 < 64)%N by (apply N.mod_lt; lia).
  assert ((c / 64) mod 64 < 64)%N by (apply N.mod_lt; lia).
  assert (c mod 64 < 64)%N by (apply N.mod_lt; lia).
  repeat (apply Forall_cons; [lia|]). apply Forall_nil.
Qed.

Lemma utf8_encode_bytes (s : str) (bs : list N) :
  utf8_encode s = Some bs -> Forall (fun b => (b < 256)%N) bs.
Proof.
  revert bs. induction s as [|c s IH]; intros bs; cbn [utf8_encode].
  - intros H. injection H as <-. constructor.
  - destruct (utf8_encode_char c) as [b|] eqn:Hc; [|discriminate].
    destruct (utf8_encode s) as [bs'|]; [|discriminate].
    intros H. injection H as <-. apply Forall_app. split.
    + now apply (utf8_encode_char_bytes c).
    + now apply IH.
Qed.

Lemma quote_bytes_url_chars (bs : list N) :
  Forall (fun b => (b < 256)%N) bs ->
  forallb url_char (quote_bytes bs) = true.
Proof.
  unfold quote_bytes. induction 1 as [|b bs Hb Hbs IH]; [reflexivity|].
  cbn [flat_map]. rewrite forallb_app, (quote_byte_url_chars Hb). exact IH.
Qed.

Lemma percent_encode_url_chars (s : str) :
  forallb url_char (percent_encode s) = true.
Proof.
  unfold percent_encode. destruct (utf8_encode s) as [bs|] eqn:H;
    [|reflexivity].
  apply quote_bytes_url_chars. now apply (utf8_encode_bytes s).
Qed.

Lemma segment_of_url_chars (prefix : str) (v : option str) :
  forallb url_char prefix = true ->
  Forall (fun p => forallb url_char p = true) (segment_of prefix v).
Proof.
  intros Hp. destruct v as [[|c s]|]; cbn [segment_of]; constructor;
    [|constructor].
  rewrite forallb_app, Hp. apply percent_encode_url_chars.
Qed.

Lemma string_of_uint_url_chars (d : Decimal.uint) :
  forallb url_char (lit (NilEmpty.string_of_uint d)) = true.
Proof. induction d; cbn; try reflexivity; exact IHd. Qed.

Lemma str_of_int_url_chars (z : Z) : forallb url_char (str_of_int z) = true.
Proof.
  assert (Huint : forall d,
             forallb url_char (lit (NilZero.string_of_uint d)) = true).
  { intros d. unfold NilZero.string_of_uint.
    destruct d; try reflexivity; apply string_of_uint_url_chars. }
  unfold str_of_int, NilZero.string_of_int.
  destruct (Z.to_int z) as [d|d]; [apply Huint|].
  change (forallb url_char (45%N :: lit (NilZero.string_of_uint d)) = true).
  cbn [forallb]. rewrite Huint. reflexivity.
Qed.

Lemma param_of_url_chars (name : str) (v : option Z) :
  forallb url_char name = true ->
  Forall (fun p => forallb url_char p = true) (param_of name v).
Proof.
  intros Hn. destruct v as [z|]; constructor; [|constructor].
  rewrite !forallb_app, Hn, str_of_int_url_chars. reflexivity.
Qed.

(** The URL [build_url] returns, when it returns. *)
Lemma build_url_form (query category : str)
    (subcategory city condition : option str)
    (min_price max_price page : option Z) (url : str) :
  build_url query category subcategory city condition
    min_price max_price page = Ok url ->
  url = BASE_URL ++ lit "/"
        ++ join (lit "/")
             (url_segments query category subcategory city condition)
        ++ lit "/" ++ url_query_string min_price max_price page.
Proof.
  unfold build_url, url_segments.
  rewrite (append_segment_cases (lit "c/") (Some category)).
  destruct (encodable_opt (Some category)); cbn [rbind]; [|discriminate].
  rewrite append_segment_cases.
  destruct (encodable_opt subcategory); cbn [rbind]; [|discriminate].
  rewrite append_segment_cases.
  destruct (encodable_opt city); cbn [rbind]; [|discriminate].
  rewrite append_segment_cases.
  destruct (encodable_opt condition); cbn [rbind]; [|discriminate].
  rewrite (append_segment_cases (lit "k/") (Some query)).
  destruct (encodable_opt (Some query)); cbn [rbind]; [|discriminate].
  rewrite <- !app_assoc. cbn [app].
  unfold url_query_string, append_param, param_of.
  intros H. injection H as <-.
  destruct min_price, max_price, page as [pg|]; cbn [truthy_int app];
    try destruct (negb (pg =? 0)); cbn [app];
    rewrite ?app_nil_r, <- ?app_assoc; reflexivity.
Qed.

(** X13.  A URL that [build_url] returns is made of the characters
    [quote] leaves alone (letters, digits, [_ . - ~ /]), the percent
    sign, and [: ? & =]: it has no space and no character outside
    ASCII, whatever the texts it was built from. *)
Theorem built_url_characters
    (query category : str) (subcategory city condition : option str)
    (min_price max_price page : option Z) (url : str) :
  build_url query category subcategory city condition
    min_price max_price page = Ok url ->
  forallb url_char url = true.
Proof.
  intros H. apply build_url_form in H. subst url.
  rewrite !forallb_app.
  assert (Hsegs : forallb url_char
                    (join (lit "/")
                       (url_segments query category subcategory city
                          condition)) = true).
  { apply forallb_join; [reflexivity|]. unfold url_segments.
    repeat (apply Forall_app; split);
      apply segment_of_url_chars; reflexivity. }
  rewrite Hsegs.
  assert (Hq : forallb url_char
                 (url_query_string min_price max_price page) = true).
  { unfold url_query_string.
    assert (Hparams :
              Forall (fun p => forallb url_char p = true)
                (param_of (lit "minPrice") min_price
                 ++ param_of (lit "maxPrice") max_price
                 ++ (if truthy_int page then param_of (lit "page") page
                     else []))).
    { apply Forall_app; split; [|apply Forall_app; split].
      - apply param_of_url_chars. reflexivity.
      - apply param_of_url_chars. reflexivity.
      - destruct (truthy_int page); [|constructor].
        apply param_of_url_chars. reflexivity. }
    destruct (param_of (lit "minPrice") min_price
              ++ param_of (lit "maxPrice") max_price
              ++ (if truthy_int page then param_of (lit "page") page else []))
      as [|p ps]; [reflexivity|].
    rewrite forallb_app. cbn [lit]. apply forallb_join; [reflexivity|].
    exact Hparams. }
  rewrite Hq. reflexivity.
Qed.

Lemma built_url_characters_witness :
  forallb url_char
    (lit "https://www.tayara.tn/ads/c/Informatique%20et%20Multimedias/T%C3%A9l%C3%A9phones/l/Ariana/k/Samsung%20S20/?minPrice=1000&page=2")
  = true.
Proof.
  apply (built_url_characters (lit "Samsung S20")
           (lit "Informatique et Multimedias")
           (Some [84; 233; 108; 233; 112; 104; 111; 110; 101; 115]%N)
           (Some (lit "Ariana")) None (Some 1000) None (Some 2)).
  vm_compute. reflexivity.
Defined.

(* ===================================================================== *)
(** ** The description *)
(* ===================================================================== *)

Lemma rstrip_cons (c : char) (u : str) :
  isspace c = false -> rstrip (c :: u) = c :: rstrip u.
Proof.
  intros Hc. unfold rstrip. cbn [rev].
  rewrite (lstrip_snoc (rev u) c Hc), rev_app_distr. reflexivity.
Qed.

Lemma strip_head (s : str) :
  match strip s with
  | [] => True
  | c :: _ => isspace c = false
  end.
Proof.
  unfold strip. pose proof (lstrip_head s) as Hh.
  destruct (lstrip s) as [|c u]; [exact I|].
  now rewrite (rstrip_cons c u Hh).
Qed.

Lemma sub_spaces_single_spaced (s : str) :
  forall b, single_spaced b (sub_spaces b s) = true.
Proof.
  induction s as [|c s IH]; intros b; [reflexivity|].
  cbn [sub_spaces]. destruct (isspace c) eqn:Hc.
  - destruct b; [apply IH|]. cbn [single_spaced].
    change (isspace 32%N) with true. cbn. apply IH.
  - cbn [single_spaced]. rewrite Hc. apply IH.
Qed.

Lemma startswith_app (marker s : str) :
  startswith marker s = true -> exists rest, s = marker ++ rest.
Proof.
  revert s. induction marker as [|m marker IH]; intros s H.
  - exists s. reflexivity.
  - destruct s as [|c s]; [discriminate|]. cbn [startswith] in H.
    apply andb_prop in H as [Hc Hs]. apply N.eqb_eq in Hc. subst c.
    destruct (IH s Hs) as [rest ->]. exists rest. reflexivity.
Qed.

Lemma search_before_app (marker s g : str) :
  search_before marker s = Some g -> exists rest, s = g ++ marker ++ rest.
Proof.
  revert g. induction s as [|c s IH]; intros g; cbn [search_before].
  - destruct (startswith marker []) eqn:Hs; [|discriminate].
    intros H. injection H as <-. now apply startswith_app.
  - destruct (startswith marker (c :: s)) eqn:Hs.
    + intros H. injection H as <-. now apply startswith_app.
    + destruct (search_before marker s) as [g'|]; [|discriminate].
      cbn [option_map]. intros H. injection H as <-.
      destruct (IH g' eq_refl) as [rest ->]. exists rest. reflexivity.
Qed.

(** X16.  The description.  With a marker ["Tel:"] in the text, it is
    made of a part of the text that the marker follows: that part
    trimmed, with every run of white space turned into one space, so that
    it has no line break, no tabulation and no two spaces in a row.
    Without a marker it is the text trimmed, white space inside left as
    it is.  Either way it does not begin with white space. *)
Theorem description_is_normalised (full_text d : str) :
  describe (Some full_text) = Ok d ->
  match search_before (lit "Tel:") full_text with
  | Some group1 =>
      (exists rest, full_text = group1 ++ lit "Tel:" ++ rest)
      /\ d = sub_spaces false (strip group1)
      /\ single_spaced true d = true
  | None => d = strip full_text
  end
  /\ match d with
     | [] => True
     | c :: _ => isspace c = false
     end.
Proof.
  unfold describe, re_search_tel. cbn [rbind].
  destruct (search_before (lit "Tel:") full_text) as [g|] eqn:Hs;
    intros H; injection H as <-.
  - assert (Hsingle : single_spaced true (sub_spaces false (strip g)) = true).
    { pose proof (strip_head g) as Hh.
      destruct (strip g) as [|c u]; [reflexivity|].
      cbn [sub_spaces]. rewrite Hh. cbn [single_spaced]. rewrite Hh.
      apply sub_spaces_single_spaced. }
    split; [split; [now apply search_before_app | split; [reflexivity|]]|].
    + exact Hsingle.
    + pose proof (strip_head g) as Hh.
      destruct (strip g) as [|c u]; [exact I|].
      cbn [sub_spaces]. now rewrite Hh.
  - split; [reflexivity | apply strip_head].
Qed.

Lemma description_is_normalised_witness :
  describe (Some (lit "  Great   phone,
 like new.  Tel: 12345678 extra"))
  = Ok (lit "Great phone, like new.")
  /\ (match search_before (lit "Tel:")
              (lit "  Great   phone,
 like new.  Tel: 12345678 extra") with
      | Some group1 =>
          (exists rest,
              lit "  Great   phone,
 like new.  Tel: 12345678 extra"
              = group1 ++ lit "Tel:" ++ rest)
          /\ lit "Great phone, like new."
             = sub_spaces false (strip group1)
          /\ single_spaced true (lit "Great phone, like new.") = true
      | None =>
          lit "Great phone, like new."
          = strip (lit "  Great   phone,
 like new.  Tel: 12345678 extra")
      end
      /\ match lit "Great phone, like new." with
         | [] => True
         | c :: _ => isspace c = false
         end).
Proof.
  split; [vm_compute; reflexivity|].
  apply description_is_normalised. vm_compute. reflexivity.
Defined.

(** X17.  The loop over the cards of a page never raises and leaves the
    browser alone.  It appends the records of the cards that yield one,
    in the order of the page, and logs one error for each card whose
    extraction raised, from within the extractor: the [except] clause of
    the loop itself never runs. *)
Theorem listing_loop_outcome {rt : Runtime} (cards : list ElementHandle) :
  forall (products : list Product) (s : State),
    for_product_elements cards products s
    = (Ok (products ++ page_records cards),
       mkState (world s) (log s ++ card_errors cards)).
Proof.
  induction cards as [|element rest IH]; intros products s.
  - cbn. rewrite !app_nil_r. now destruct s.
  - cbn [for_product_elements page_records card_errors flat_map].
    unfold bind at 1. unfold try_except at 1. unfold bind at 1.
    rewrite extract_product_info_eq.
    destruct (card_fields element) as [[p|]|e]; cbn [ret app];
      rewrite IH; unfold with_log; cbn [world log];
      rewrite <- ?app_assoc; reflexivity.
Qed.
